(** * Unistream static-analysis engine: architecture analyzer and code validator

    A shallow embedding of [analyze_architecture.py] and [validate_code.py].
    Python [str] values are [string]; a [dict] whose iteration order matters
    is an association list in insertion order; a [set] that is only tested for
    membership is a [gset], one that is iterated is the list of its elements
    in iteration order; [int] is [Z].  A raised exception is the [Raise]
    outcome of the [result] type. *)

From Stdlib Require Import ZArith Ascii String List Bool Lia DecimalString.
From stdpp Require Import base decidable gmap strings.
Import ListNotations.
Open Scope string_scope.
Open Scope Z_scope.

(** ** Python [str] operations *)

Module PyStr.

(** [sub in s] *)
Fixpoint contains (sub s : string) : bool :=
  String.prefix sub s ||
  match s with
  | EmptyString => false
  | String _ s' => contains sub s'
  end.

Definition reverse (s : string) : string :=
  string_of_list_ascii (rev (list_ascii_of_string s)).

(** [s.endswith(suffix)] *)
Definition endswith (s suffix : string) : bool :=
  String.prefix (reverse suffix) (reverse s).

(** [s.replace(old, new)] for a non-empty [old]: occurrences are replaced
    left to right and do not overlap; [skip] counts the characters of the
    occurrence just replaced that are still to be dropped. *)
Fixpoint replace_from (old new : string) (skip : nat) (s : string) : string :=
  match s with
  | EmptyString => EmptyString
  | String c s' =>
      match skip with
      | S k => replace_from old new k s'
      | O =>
          if String.prefix old s
          then new ++ replace_from old new (Nat.pred (String.length old)) s'
          else String c (replace_from old new O s')
      end
  end.

Definition replace (s old new : string) : string := replace_from old new O s.

(** [''.join(parts)] *)
Definition join (parts : list string) : string := String.concat "" parts.

(** [seq[start:stop]] with Python's treatment of indices: a negative index
    counts from the end, and every index is clamped to [0, len]. *)
Definition slice_index (len i : Z) : Z :=
  if i <? 0 then Z.max 0 (i + len) else Z.min i len.

Definition slice {A} (l : list A) (start stop : Z) : list A :=
  let len := Z.of_nat (List.length l) in
  let lo := slice_index len start in
  let hi := slice_index len stop in
  firstn (Z.to_nat (hi - lo)) (skipn (Z.to_nat lo) l).

(** What "occurs verbatim in" means. *)
Definition occurs_in (sub s : string) : Prop :=
  exists pre post, s = pre ++ sub ++ post.

End PyStr.

(** ** Outcomes: a value, or a raised Python exception *)

Inductive exn := ReError | KeyError | TypeError | IndexError.

Inductive result (A : Type) : Type :=
| Ok (a : A)
| Raise (e : exn).
Arguments Ok {A} a.
Arguments Raise {A} e.

#[global] Instance result_ret : MRet result := fun _ a => Ok a.

#[global] Instance result_bind : MBind result := fun _ _ k r =>
  match r with
  | Ok a => k a
  | Raise e => Raise e
  end.

(** [for x in xs: body], the loop state threaded through [body]; an exception
    raised by one iteration leaves the loop. *)
Fixpoint for_each {A S} (xs : list A) (body : A -> S -> result S) (s : S)
  : result S :=
  match xs with
  | [] => Ok s
  | x :: xs' => s' ← body x s; for_each xs' body s'
  end.

(** [d.get(key, default)] on an optional entry. *)
Definition get_or {A} (entry : option A) (dflt : A) : A :=
  match entry with
  | Some a => a
  | None => dflt
  end.

(** [d.get(key)] / [d[key]] / [key in d] on a dict kept in insertion order. *)
Fixpoint dict_get {V} (d : list (string * V)) (key : string) : option V :=
  match d with
  | [] => None
  | (k, v) :: d' => if String.eqb k key then Some v else dict_get d' key
  end.

(** ** The fragment of Python's [re] that the engine's own rewriting produces

    A pattern of the fragment is a sequence of literal characters, the
    wildcard [.], and the negated-class stars [[^/]*] and [[^.]*].  [parse]
    answers [None] on any other use of a metacharacter; among those are the
    patterns on which [re.compile] raises [re.error], such as an unbalanced
    parenthesis.  Outside the fragment [None] says nothing about Python: a
    valid regex such as [a+] is outside it as well.  Inside it the text is
    matched byte by byte, which is Python's matching on ASCII text.  The
    statements that hold for every engine do not use this module; the others
    apply it to ASCII patterns of the fragment and to [(] only. *)

Module Re.

Inductive item :=
| Lit (c : ascii)
| AnyChar
| StarNot (c : ascii).

Definition is_meta (c : ascii) : bool :=
  existsb (Ascii.eqb c)
    (list_ascii_of_string "\^$*+?{}[]()|").

Fixpoint parse (p : string) : option (list item) :=
  match p with
  | EmptyString => Some []
  | String "[" (String "^" (String c (String "]" (String "*" rest)))) =>
      if Ascii.eqb c "/" || Ascii.eqb c "."
      then option_map (cons (StarNot c)) (parse rest)
      else None
  | String "." rest => option_map (cons AnyChar) (parse rest)
  | String c rest =>
      if is_meta c then None else option_map (cons (Lit c)) (parse rest)
  end.

Definition newline : ascii := "010"%char.

(** Does some prefix of [s] match the items? *)
Fixpoint match_here (r : list item) (s : string) : bool :=
  match r with
  | [] => true
  | Lit c :: r' =>
      match s with
      | String x s' => Ascii.eqb x c && match_here r' s'
      | EmptyString => false
      end
  | AnyChar :: r' =>
      match s with
      | String x s' => negb (Ascii.eqb x newline) && match_here r' s'
      | EmptyString => false
      end
  | StarNot c :: r' =>
      (fix star (s : string) : bool :=
         match_here r' s ||
         match s with
         | String x s' => negb (Ascii.eqb x c) && star s'
         | EmptyString => false
         end) s
  end.

Fixpoint search_here (r : list item) (s : string) : bool :=
  match_here r s ||
  match s with
  | String _ s' => search_here r s'
  | EmptyString => false
  end.

(** [re.match(pattern, s)] is not None; [None] when outside the fragment. *)
Definition re_match (pattern s : string) : option bool :=
  option_map (fun r => match_here r s) (parse pattern).

(** [re.search(pattern, s)] is not None; [None] when outside the fragment. *)
Definition re_search (pattern s : string) : option bool :=
  option_map (fun r => search_here r s) (parse pattern).

End Re.

(** [str(n)] for an [int]. *)
Definition str_of_int (n : Z) : string :=
  DecimalString.NilZero.string_of_int (Z.to_int n).

(** ** analyze_architecture.py *)

Module Analyzer.

(** The [Module] dataclass. *)
Record PyModule := {
  path : string;
  name : string;
  imports : list string;
  classes : list string;
  functions : list string;
  line_count : Z;
  layer : option string
}.

Record ArchitectureViolation := {
  severity : string;
  rule : string;
  file_path : string;
  message : string;
  suggestion : string
}.

(** The parsed rules document; an absent key is [None]. *)
Record LayerInfo := {
  directories : option (list string);
  forbidden_imports : option (list string)
}.

Record Tier := {
  warning : option Z;
  error : option Z
}.

Record Thresholds := {
  lines : option Tier;
  methods : option Tier
}.

Record PatternInfo := {
  pattern_name : option string;
  regex : option string;
  pattern_suggestion : option string
}.

Record DuplicateLogic := {
  patterns : option (list PatternInfo);
  threshold : option Z
}.

Record AbstractionIndicators := {
  duplicate_logic : option DuplicateLogic
}.

Record Rules := {
  layers : option (list (string * LayerInfo));
  complexity_thresholds : option Thresholds;
  abstraction_indicators : option AbstractionIndicators
}.

(** [{}] where the code reads a missing section. *)
Definition no_layer_info : LayerInfo :=
  {| directories := None; forbidden_imports := None |}.
Definition no_tier : Tier := {| warning := None; error := None |}.
Definition no_thresholds : Thresholds := {| lines := None; methods := None |}.
Definition no_duplicate_logic : DuplicateLogic :=
  {| patterns := None; threshold := None |}.
Definition no_indicators : AbstractionIndicators :=
  {| duplicate_logic := None |}.

(** The dependency graph, a [defaultdict(set)]: keys in insertion order,
    each with the elements of its set in the order they were added.  Python
    leaves the order in which a set is iterated open; no statement below
    depends on the order within a set. *)
Definition graph := list (string * list string).

(** The fields of [self]. *)
Record ArchitectureAnalyzer := {
  rules : Rules;
  modules : list (string * PyModule);
  violations : list ArchitectureViolation;
  dependency_graph : graph
}.

Definition with_violations (self : ArchitectureAnalyzer)
    (vs : list ArchitectureViolation) : ArchitectureAnalyzer :=
  {| rules := rules self; modules := modules self;
     violations := vs; dependency_graph := dependency_graph self |}.

Definition with_dependency_graph (self : ArchitectureAnalyzer)
    (g : graph) : ArchitectureAnalyzer :=
  {| rules := rules self; modules := modules self;
     violations := violations self; dependency_graph := g |}.

Section Engine.

(** [re.match] and [re.search] as truth values; [None] is [re.error]. *)
Variable re_match : string -> string -> option bool.
Variable re_search : string -> string -> option bool.

(** *** determine_layer *)

(** The loop over one layer's [directories]. *)
Fixpoint directories_match (directories : list string) (rel_path : string)
  : result bool :=
  match directories with
  | [] => Ok false
  | dir_pattern :: rest =>
      let pattern :=
        PyStr.replace (PyStr.replace dir_pattern "**" ".*") "*" "[^/]*" in
      match re_match pattern rel_path with
      | None => Raise ReError
      | Some true => Ok true
      | Some false => directories_match rest rel_path
      end
  end.

(** The loop over [layers_config.items()]. *)
Fixpoint determine_layer_in (layers_config : list (string * LayerInfo))
    (rel_path : string) : result (option string) :=
  match layers_config with
  | [] => Ok None
  | (layer_name, layer_info) :: rest =>
      hit ← directories_match (get_or (directories layer_info) []) rel_path;
      if hit : bool then Ok (Some layer_name)
      else determine_layer_in rest rel_path
  end.

(** [rel_path] is [str(file_path.relative_to(base_dir))]. *)
Definition determine_layer (rules : Rules) (rel_path : string)
  : result (option string) :=
  determine_layer_in (get_or (layers rules) []) rel_path.

(** *** check_layer_violations *)

Definition layer_violation (module_name layer_name import_name : string)
  : ArchitectureViolation :=
  {| severity := "ERROR";
     rule := "no_layer_skipping";
     file_path := module_name;
     message := "Layer '" ++ layer_name ++ "' should not import '"
                ++ import_name ++ "'";
     suggestion := "Access through allowed layers instead" |}.

(** The body of the loop over [forbidden]. *)
Definition check_forbidden (module_name layer_name import_name : string)
    (forbidden_pattern : string) (vs : list ArchitectureViolation)
  : result (list ArchitectureViolation) :=
  let pattern :=
    PyStr.replace (PyStr.replace forbidden_pattern "**" ".*") "*" "[^.]*" in
  match re_match pattern import_name with
  | None => Raise ReError
  | Some true =>
      Ok (vs ++ [layer_violation module_name layer_name import_name])%list
  | Some false => Ok vs
  end.

(** The body of the loop over [self.modules.items()]. *)
Definition check_module_layer (layers_config : list (string * LayerInfo))
    (entry : string * PyModule) (vs : list ArchitectureViolation)
  : result (list ArchitectureViolation) :=
  let '(module_name, module) := entry in
  match layer module with
  | None => Ok vs
  | Some EmptyString => Ok vs
  | Some layer_name =>
      let layer_info :=
        get_or (dict_get layers_config layer_name) no_layer_info in
      let forbidden := get_or (forbidden_imports layer_info) [] in
      for_each (imports module)
        (fun import_name =>
           for_each forbidden
             (check_forbidden module_name layer_name import_name))
        vs
  end.

Definition check_layer_violations (self : ArchitectureAnalyzer)
  : result ArchitectureAnalyzer :=
  let layers_config := get_or (layers (rules self)) [] in
  vs ← for_each (modules self) (check_module_layer layers_config)
         (violations self);
  Ok (with_violations self vs).

(** *** build_dependency_graph *)

(** The characters of the final path component, last character first. *)
Fixpoint final_component (rev_path : list ascii) : list ascii :=
  match rev_path with
  | [] => []
  | c :: rest => if Ascii.eqb c "/" then [] else c :: final_component rest
  end.

Fixpoint find_char (c : ascii) (l : list ascii) : option nat :=
  match l with
  | [] => None
  | x :: rest => if Ascii.eqb x c then Some O else option_map S (find_char c rest)
  end.

(** [str(path.with_suffix(''))] on the string of a path with a non-empty
    final component: the suffix starts at the last dot of the name, and
    exists when that dot is neither the first nor the last character of
    the name. *)
Definition with_suffix_empty (p : string) : string :=
  let rev_path := rev (list_ascii_of_string p) in
  let rev_name := final_component rev_path in
  match find_char "." rev_name with
  | Some j =>
      if (Nat.ltb 0 j && Nat.ltb j (Nat.pred (List.length rev_name)))%bool
      then string_of_list_ascii (rev (skipn (S j) rev_path))
      else p
  | None => p
  end.

(** [str(module.path.with_suffix('')).replace('/', '.')]. *)
Definition dotted_path (module : PyModule) : string :=
  PyStr.replace (with_suffix_empty (path module)) "/" ".".

(** [self.dependency_graph[key].add(value)]. *)
Fixpoint graph_add (g : graph) (key value : string) : graph :=
  match g with
  | [] => [(key, [value])]
  | (k, vs) :: g' =>
      if String.eqb k key
      then (k, if existsb (String.eqb value) vs then vs
               else (vs ++ [value])%list) :: g'
      else (k, vs) :: graph_add g' key value
  end.

(** The body of the innermost loop, over the candidate modules. *)
Definition resolve_import (module_name import_name : string)
    (candidate : string * PyModule) (g : graph) : graph :=
  let '(other_name, other_module) := candidate in
  let other_module_path := dotted_path other_module in
  if (PyStr.contains import_name other_module_path
      || PyStr.endswith other_module_path import_name)%bool
  then graph_add g module_name other_name
  else g.

Definition build_dependency_graph (self : ArchitectureAnalyzer)
  : ArchitectureAnalyzer :=
  with_dependency_graph self
    (fold_left
       (fun g '(module_name, module) =>
          fold_left
            (fun g import_name =>
               fold_left
                 (fun g candidate =>
                    resolve_import module_name import_name candidate g)
                 (modules self) g)
            (imports module) g)
       (modules self) (dependency_graph self)).

(** *** check_circular_dependencies *)

(** [self.dependency_graph.get(key, [])]. *)
Definition graph_get (g : graph) (key : string) : list string :=
  get_or (dict_get g key) [].

(** [for neighbor in ...: if probe(neighbor): return True] then
    [return False]. *)
Fixpoint any_neighbor (probe : string -> option bool)
    (neighbors : list string) : option bool :=
  match neighbors with
  | [] => Some false
  | neighbor :: rest =>
      match probe neighbor with
      | None => None
      | Some true => Some true
      | Some false => any_neighbor probe rest
      end
  end.

(** The nested [has_path]; each recursive call receives its own copy of
    [visited].  [None] only when [fuel] recursion levels were not enough;
    the interpreter's own recursion limit is not part of the model. *)
Fixpoint has_path (fuel : nat) (g : graph) (start end_ : string)
    (visited : gset string) : option bool :=
  match fuel with
  | O => None
  | S fuel' =>
      if decide (start = end_) then Some true
      else if decide (start ∈ visited) then Some false
      else
        let visited := visited ∪ {[start]} in
        any_neighbor (fun neighbor => has_path fuel' g neighbor end_ visited)
          (graph_get g start)
  end.

(** [tuple(sorted([a, b]))]. *)
Definition sorted_pair (a b : string) : string * string :=
  if String.leb a b then (a, b) else (b, a).

Definition circular_violation (module_a module_b : string)
  : ArchitectureViolation :=
  {| severity := "ERROR";
     rule := "no_circular_dependencies";
     file_path := module_a;
     message := "Circular dependency: " ++ module_a ++ " ↔ " ++ module_b;
     suggestion := "Refactor to remove circular dependency" |}.

(** The loop state: the [checked] pairs and [self.violations]. *)
Definition cycle_state : Type :=
  gset (string * string) * list ArchitectureViolation.

(** The body of the loop over [self.dependency_graph[module_a]]. *)
Definition check_edge (g : graph) (module_a module_b : string)
    (st : cycle_state) : option cycle_state :=
  let '(checked, vs) := st in
  let pair := sorted_pair module_a module_b in
  if decide (pair ∈ checked) then Some st
  else
    let checked := checked ∪ {[pair]} in
    match has_path (S (List.length g)) g module_b module_a ∅ with
    | None => None
    | Some true =>
        Some (checked, (vs ++ [circular_violation module_a module_b])%list)
    | Some false => Some (checked, vs)
    end.

Fixpoint for_each_opt {A S} (xs : list A) (body : A -> S -> option S)
    (s : S) : option S :=
  match xs with
  | [] => Some s
  | x :: xs' =>
      match body x s with
      | Some s' => for_each_opt xs' body s'
      | None => None
      end
  end.

Definition check_circular_dependencies (self : ArchitectureAnalyzer)
  : option ArchitectureAnalyzer :=
  let g := dependency_graph self in
  match
    for_each_opt (map fst g)
      (fun module_a =>
         for_each_opt (graph_get g module_a) (check_edge g module_a))
      (∅, violations self)
  with
  | Some (_, vs) => Some (with_violations self vs)
  | None => None
  end.

(** *** check_complexity *)

Definition too_large (module_name : string) (module : PyModule)
  : ArchitectureViolation :=
  {| severity := "ERROR";
     rule := "single_responsibility";
     file_path := module_name;
     message := "File too large: " ++ str_of_int (line_count module) ++ " lines";
     suggestion := "Consider splitting into smaller modules" |}.

Definition large (module_name : string) (module : PyModule)
  : ArchitectureViolation :=
  {| severity := "WARNING";
     rule := "single_responsibility";
     file_path := module_name;
     message := "File is large: " ++ str_of_int (line_count module) ++ " lines";
     suggestion := "Consider refactoring" |}.

Definition too_many_methods (module_name : string) (method_count : Z)
  : ArchitectureViolation :=
  {| severity := "ERROR";
     rule := "single_responsibility";
     file_path := module_name;
     message := "Too many methods: " ++ str_of_int method_count;
     suggestion := "Split into multiple classes" |}.

(** [thresholds.get('lines', {}).get('error', 1000)] and its siblings. *)
Definition lines_error (thresholds : Thresholds) : Z :=
  get_or (error (get_or (lines thresholds) no_tier)) 1000.

Definition lines_warning (thresholds : Thresholds) : Z :=
  get_or (warning (get_or (lines thresholds) no_tier)) 500.

Definition methods_error (thresholds : Thresholds) : Z :=
  get_or (error (get_or (methods thresholds) no_tier)) 30.

(** The line-count branch of the loop body. *)
Definition check_line_count (thresholds : Thresholds)
    (module_name : string) (module : PyModule)
  : list ArchitectureViolation :=
  if line_count module >? lines_error thresholds
  then [too_large module_name module]
  else if line_count module >? lines_warning thresholds
  then [large module_name module]
  else [].

(** The method-count branch of the loop body. *)
Definition check_method_count (thresholds : Thresholds)
    (module_name : string) (module : PyModule)
  : list ArchitectureViolation :=
  let method_count := Z.of_nat (List.length (functions module)) in
  if method_count >? methods_error thresholds
  then [too_many_methods module_name method_count]
  else [].

Definition check_complexity (self : ArchitectureAnalyzer)
  : ArchitectureAnalyzer :=
  let thresholds := get_or (complexity_thresholds (rules self)) no_thresholds in
  with_violations self
    (fold_left
       (fun vs '(module_name, module) =>
          (vs ++ check_line_count thresholds module_name module
              ++ check_method_count thresholds module_name module)%list)
       (modules self) (violations self)).

(** *** check_duplicate_logic *)

(** The files on disk, by path; a path that is absent cannot be opened. *)
Definition file_system := list (string * string).

(** The [try] block of the loop over the modules: any exception, from
    [open] or from [re.search], is swallowed by the bare [except]. *)
Definition module_matches (fs : file_system) (regex : option string)
    (module : PyModule) : bool :=
  match dict_get fs (path module) with
  | None => false
  | Some content =>
      match regex with
      | None => false
      | Some r =>
          match re_search r content with
          | None => false
          | Some found => found
          end
      end
  end.

Definition duplicate_violation (pattern_info : PatternInfo)
    (count : nat) (match_ : string) : ArchitectureViolation :=
  {| severity := "INFO";
     rule := "duplicate_logic";
     file_path := match_;
     message := "Duplicate pattern '"
                ++ get_or (pattern_name pattern_info) "None"
                ++ "' found in " ++ str_of_int (Z.of_nat count) ++ " files";
     suggestion := get_or (pattern_suggestion pattern_info) "" |}.

(** The body of the loop over [patterns]. *)
Definition check_pattern (fs : file_system) (threshold : Z)
    (mods : list (string * PyModule)) (pattern_info : PatternInfo)
  : list ArchitectureViolation :=
  let matches :=
    map fst
      (List.filter
         (fun entry => module_matches fs (regex pattern_info) (snd entry))
         mods) in
  if Z.of_nat (List.length matches) >=? threshold
  then map (duplicate_violation pattern_info (List.length matches)) matches
  else [].

Definition check_duplicate_logic (fs : file_system)
    (self : ArchitectureAnalyzer) : ArchitectureAnalyzer :=
  let indicators :=
    get_or (duplicate_logic
              (get_or (abstraction_indicators (rules self)) no_indicators))
      no_duplicate_logic in
  let threshold := get_or (threshold indicators) 3 in
  with_violations self
    (fold_left
       (fun vs pattern_info =>
          (vs ++ check_pattern fs threshold (modules self) pattern_info)%list)
       (get_or (patterns indicators) []) (violations self)).

(** *** print_violations *)

(** The value returned, which [main] hands to [sys.exit]. *)
Definition print_violations (self : ArchitectureAnalyzer) : Z :=
  match violations self with
  | [] => 0
  | _ =>
      let errors :=
        List.filter (fun v => String.eqb (severity v) "ERROR") (violations self) in
      match errors with
      | [] => 0
      | _ => 1
      end
  end.

End Engine.

End Analyzer.

(** ** validate_code.py *)

Module Validator.

Inductive Severity := ERROR | WARNING | INFO | OK.

(** [Severity.value]. *)
Definition value (s : Severity) : string :=
  match s with
  | ERROR => "ERROR"
  | WARNING => "WARNING"
  | INFO => "INFO"
  | OK => "OK"
  end.

(** [Severity[name]]; an unknown name is a [KeyError]. *)
Definition Severity_named (member : string) : result Severity :=
  if String.eqb member "ERROR" then Ok ERROR
  else if String.eqb member "WARNING" then Ok WARNING
  else if String.eqb member "INFO" then Ok INFO
  else if String.eqb member "OK" then Ok OK
  else Raise KeyError.

(** [==] on members of the enumeration. *)
Definition Severity_eqb (a b : Severity) : bool :=
  match a, b with
  | ERROR, ERROR | WARNING, WARNING | INFO, INFO | OK, OK => true
  | _, _ => false
  end.

Record Finding := {
  severity : Severity;
  file_path : string;
  line_number : Z;
  rule_name : string;
  message : string;
  code_snippet : string;
  suggestion : string
}.

(** An entry of [patterns]: a bare regex, or a dict with optional keys. *)
Inductive PatternConfig :=
| Bare (regex : string)
| Rich (regex message suggestion severity : option string).

(** An entry of [allowed_contexts]; its [pattern] key is present. *)
Record Context := { pattern : string }.

Record CheckConfig := {
  severity_name : option string;
  patterns : option (list PatternConfig);
  files : option (list string);
  allowed_contexts : option (list Context);
  context_lines : option Z
}.

(** The fields of [self]. *)
Record CodeValidator := {
  rules : list (string * CheckConfig);
  findings : list Finding
}.

Definition with_findings (self : CodeValidator) (fs : list Finding)
  : CodeValidator :=
  {| rules := rules self; findings := fs |}.

(** [len(all_lines)]. *)
Definition len {A} (l : list A) : Z := Z.of_nat (List.length l).

(** *** is_allowed_context *)

(** The bounds of the slice taken around line [line_num]. *)
Definition window_start (line_num context_lines : Z) : Z :=
  Z.max 0 (line_num - context_lines - 1).

Definition window_end (all_lines : list string) (line_num context_lines : Z) : Z :=
  Z.min (len all_lines) (line_num + context_lines).

(** The loop over [allowed]. *)
Fixpoint is_allowed_in (allowed : list Context) (file_path line : string)
    (all_lines : list string) (line_num : Z) (check_config : CheckConfig)
  : bool :=
  match allowed with
  | [] => false
  | context :: rest =>
      let context_pattern := pattern context in
      if (String.eqb context_pattern "tests/"
          && PyStr.contains "tests/" file_path)%bool then true
      else if PyStr.contains context_pattern line then true
      else
        let context_lines := get_or (context_lines check_config) 2 in
        let start := window_start line_num context_lines in
        let end_ := window_end all_lines line_num context_lines in
        let context_text := PyStr.join (PyStr.slice all_lines start end_) in
        if PyStr.contains context_pattern context_text then true
        else is_allowed_in rest file_path line all_lines line_num check_config
  end.

Definition is_allowed_context (file_path line : string)
    (all_lines : list string) (line_num : Z) (check_config : CheckConfig)
  : bool :=
  is_allowed_in (get_or (allowed_contexts check_config) [])
    file_path line all_lines line_num check_config.

(** *** run_check *)

(** The whitespace that [str.strip()] removes, on the UTF-8 bytes of the
    text (a file that is not valid UTF-8 is not read at all).  The code
    points are U+0009 to U+000D, U+001C to U+0020, U+0085, U+00A0, U+1680,
    U+2000 to U+200A, U+2028, U+2029, U+202F, U+205F and U+3000; the first
    ten are one byte each, U+0085 and U+00A0 are the two bytes 194 133 and
    194 160, the others three bytes. *)
Definition is_space (c : ascii) : bool :=
  let n := nat_of_ascii c in
  ((Nat.leb 9 n && Nat.leb n 13) || (Nat.leb 28 n && Nat.leb n 32))%bool.

Definition two_byte_space (b1 b2 : nat) : bool :=
  (Nat.eqb b1 194 && (Nat.eqb b2 133 || Nat.eqb b2 160))%bool.

Definition three_byte_space (b1 b2 b3 : nat) : bool :=
  ((Nat.eqb b1 225 && Nat.eqb b2 154 && Nat.eqb b3 128)
   || (Nat.eqb b1 226 && Nat.eqb b2 128
       && ((Nat.leb 128 b3 && Nat.leb b3 138)
           || Nat.eqb b3 168 || Nat.eqb b3 169 || Nat.eqb b3 175))
   || (Nat.eqb b1 226 && Nat.eqb b2 129 && Nat.eqb b3 159)
   || (Nat.eqb b1 227 && Nat.eqb b2 128 && Nat.eqb b3 128))%bool.

(** The number of bytes of the whitespace character that [l] starts with,
    0 when it starts with none. *)
Definition leading_space (l : list ascii) : nat :=
  match l with
  | [] => 0
  | c1 :: more =>
      if is_space c1 then 1
      else
        match more with
        | [] => 0
        | c2 :: more =>
            if two_byte_space (nat_of_ascii c1) (nat_of_ascii c2) then 2
            else
              match more with
              | c3 :: _ =>
                  if three_byte_space (nat_of_ascii c1) (nat_of_ascii c2)
                       (nat_of_ascii c3)
                  then 3 else 0
              | [] => 0
              end
        end
  end%nat.

(** The same for the whitespace character that a text ends with, the text
    given last byte first. *)
Definition trailing_space (rev_l : list ascii) : nat :=
  match rev_l with
  | [] => 0
  | c_last :: more =>
      if is_space c_last then 1
      else
        match more with
        | [] => 0
        | c_prev :: more =>
            if two_byte_space (nat_of_ascii c_prev) (nat_of_ascii c_last) then 2
            else
              match more with
              | c_first :: _ =>
                  if three_byte_space (nat_of_ascii c_first)
                       (nat_of_ascii c_prev) (nat_of_ascii c_last)
                  then 3 else 0
              | [] => 0
              end
        end
  end%nat.

(** Drop whitespace characters from the front of [l]; [width] measures the
    whitespace character at the front, and [skip] counts the bytes of the
    one being dropped that are still to go. *)
Fixpoint drop_spaces (width : list ascii -> nat) (skip : nat)
    (l : list ascii) : list ascii :=
  match l with
  | [] => []
  | _ :: rest =>
      match skip with
      | S k => drop_spaces width k rest
      | O =>
          match width l with
          | O => l
          | S k => drop_spaces width k rest
          end
      end
  end.

Definition lstrip (l : list ascii) : list ascii :=
  drop_spaces leading_space 0 l.

(** [s.strip()]. *)
Definition strip (s : string) : string :=
  string_of_list_ascii
    (rev (drop_spaces trailing_space 0
            (rev (lstrip (list_ascii_of_string s))))).

(** [str(file_path.relative_to(file_path.parents[len(file_path.parts) - 1]))]:
    a relative path has as many parents as parts, the last of them [.];
    an absolute path has one parent fewer, and the index is out of range. *)
Definition finding_path (file_path : string) : result string :=
  if String.prefix "/" file_path then Raise IndexError else Ok file_path.

(** What the loop over [patterns] binds for one entry. *)
Record pattern_fields := {
  pf_pattern : option string;
  pf_message : string;
  pf_suggestion : string;
  pf_severity : Severity
}.

Definition read_pattern (severity : Severity) (pattern_config : PatternConfig)
  : result pattern_fields :=
  match pattern_config with
  | Rich regex message suggestion sev =>
      pattern_severity ← Severity_named (get_or sev (value severity));
      Ok {| pf_pattern := regex;
            pf_message := get_or message "Pattern match";
            pf_suggestion := get_or suggestion "";
            pf_severity := pattern_severity |}
  | Bare regex =>
      Ok {| pf_pattern := Some regex;
            pf_message := "Matched pattern: " ++ regex;
            pf_suggestion := "";
            pf_severity := severity |}
  end.

Section Engine.

(** [re.search] as a truth value; [None] is [re.error]. *)
Variable re_search : string -> string -> option bool.

(** The body of the loop over [enumerate(lines, start=1)]; the loop
    state is the next line number and [self.findings]. *)
Definition scan_line (file_path : string) (lines : list string)
    (check_name : string) (check_config : CheckConfig)
    (pf : pattern_fields) (line : string) (st : Z * list Finding)
  : result (Z * list Finding) :=
  let '(line_num, fs) := st in
  match pf_pattern pf with
  | None => Raise TypeError
  | Some pattern =>
      match re_search pattern line with
      | None => Raise ReError
      | Some false => Ok (line_num + 1, fs)
      | Some true =>
          if is_allowed_context file_path line lines line_num check_config
          then Ok (line_num + 1, fs)
          else
            shown ← finding_path file_path;
            Ok (line_num + 1,
                (fs ++ [ {| severity := pf_severity pf;
                            file_path := shown;
                            line_number := line_num;
                            rule_name := check_name;
                            message := pf_message pf;
                            code_snippet := strip line;
                            suggestion := pf_suggestion pf |} ])%list)
      end
  end.

(** The body of the loop over [patterns]. *)
Definition scan_pattern (file_path : string) (lines : list string)
    (check_name : string) (check_config : CheckConfig)
    (severity : Severity) (pattern_config : PatternConfig)
    (fs : list Finding) : result (list Finding) :=
  pf ← read_pattern severity pattern_config;
  st ← for_each lines (scan_line file_path lines check_name check_config pf)
         (1, fs);
  Ok (snd st).

Definition run_check (self : CodeValidator) (file_path : string)
    (lines : list string) (check_name : string) : result CodeValidator :=
  match dict_get (rules self) check_name with
  | None => Raise KeyError
  | Some check_config =>
      severity ← Severity_named (get_or (severity_name check_config) "WARNING");
      let patterns := get_or (patterns check_config) [] in
      let applies :=
        match files check_config with
        | Some file_patterns =>
            existsb (fun pattern => PyStr.contains pattern file_path)
              file_patterns
        | None => true
        end in
      if applies
      then
        fs ← for_each patterns
               (scan_pattern file_path lines check_name check_config severity)
               (findings self);
        Ok (with_findings self fs)
      else Ok self
  end.

(** *** validate_file *)

Definition all_checks : list string :=
  [ "hardcoded_pixel_sizes"; "unsafe_fallbacks"; "coordinate_bugs";
    "hardcoded_config"; "missing_validation"; "import_issues";
    "code_quality" ].

Definition check_alias (check_type : string) : string :=
  if String.eqb check_type "pixel_size" then "hardcoded_pixel_sizes"
  else if String.eqb check_type "fallbacks" then "unsafe_fallbacks"
  else if String.eqb check_type "coordinates" then "coordinate_bugs"
  else if String.eqb check_type "config" then "hardcoded_config"
  else check_type.

Definition checks_to_run (check_types : option (list string)) : list string :=
  match check_types with
  | None => all_checks
  | Some [] => all_checks
  | Some types => map check_alias types
  end.

(** [contents] is what [readlines] gives, or [None] when the file cannot
    be read. *)
Definition validate_file (check_types : option (list string))
    (file : string * option (list string)) (self : CodeValidator)
  : result CodeValidator :=
  let '(file_path, contents) := file in
  match contents with
  | None => Ok self
  | Some lines =>
      for_each (checks_to_run check_types)
        (fun check_name self =>
           match dict_get (rules self) check_name with
           | Some _ => run_check self file_path lines check_name
           | None => Ok self
           end)
        self
  end.

(** *** validate_directory, over the files left after the exclusions *)

Definition validate_directory (self : CodeValidator)
    (python_files : list (string * option (list string)))
    (check_types : option (list string)) : result CodeValidator :=
  for_each python_files (validate_file check_types) self.

End Engine.

(** *** print_summary *)

(** The value returned; the bare [return] gives [None]. *)
Definition print_summary (self : CodeValidator) : option Z :=
  match findings self with
  | [] => None
  | _ =>
      let errors :=
        List.filter (fun f => Severity_eqb (severity f) ERROR) (findings self) in
      match errors with
      | [] => Some 0
      | _ => Some 1
      end
  end.

End Validator.


(** ** The exit status and the run result read from it

    Both [main] functions end in [sys.exit(main())] with the value the report
    function returned. *)

Inductive run_result := pass | fail.

(** [sys.exit(code)]: [None] exits with status 0. *)
Definition exit_status (code : option Z) : Z := get_or code 0.

Definition run_result_of (status : Z) : run_result :=
  if status =? 0 then pass else fail.

(** ** Allowed contexts, in the words of the specification

    A match at line [n] is exempt when some allowed context is satisfied: its
    pattern is the sentinel and the file path contains the marker, or its
    pattern occurs verbatim in the matching line, or it occurs verbatim in the
    text of the lines numbered [n - k] to [n + k], [k] being the context-window
    size. *)

Module ContextSpec.

Fixpoint numbered_from (i : Z) (ls : list string) : list (Z * string) :=
  match ls with
  | [] => []
  | l :: rest => (i, l) :: numbered_from (i + 1) rest
  end.

Definition lines_between (lo hi : Z) (numbered : list (Z * string))
  : list string :=
  map snd
    (List.filter (fun e => (lo <=? fst e) && (fst e <=? hi))%bool numbered).

Definition window (all_lines : list string) (n k : Z) : list string :=
  lines_between (n - k) (n + k) (numbered_from 1 all_lines).

Definition satisfied (context_pattern file_path line : string)
    (all_lines : list string) (n k : Z) : Prop :=
  (context_pattern = "tests/" /\ PyStr.occurs_in "tests/" file_path)
  \/ PyStr.occurs_in context_pattern line
  \/ PyStr.occurs_in context_pattern (String.concat "" (window all_lines n k)).

Definition exempt (file_path line : string) (all_lines : list string)
    (n : Z) (check_config : Validator.CheckConfig) : Prop :=
  exists context,
    In context (get_or (Validator.allowed_contexts check_config) [])
    /\ satisfied (Validator.pattern context) file_path line all_lines n
         (get_or (Validator.context_lines check_config) 2).

End ContextSpec.

(** ** Glob matching, in the words of the specification

    [**] matches any sequence of path segments, [*] matches within one
    segment, every other character stands for itself, and the whole path has
    to be matched.  [sep] is the character that separates segments. *)

Module GlobSpec.

Inductive item :=
| Char (c : ascii)
| Star
| DoubleStar.

Fixpoint parse (glob : string) : list item :=
  match glob with
  | EmptyString => []
  | String "*" (String "*" rest) => DoubleStar :: parse rest
  | String "*" rest => Star :: parse rest
  | String c rest => Char c :: parse rest
  end.

Fixpoint full_match (sep : ascii) (g : list item) (s : string) : bool :=
  match g with
  | [] => match s with EmptyString => true | _ => false end
  | Char c :: g' =>
      match s with
      | String x s' => Ascii.eqb x c && full_match sep g' s'
      | EmptyString => false
      end
  | Star :: g' =>
      (fix star (s : string) : bool :=
         full_match sep g' s ||
         match s with
         | String x s' => negb (Ascii.eqb x sep) && star s'
         | EmptyString => false
         end) s
  | DoubleStar :: g' =>
      (fix stars (s : string) : bool :=
         full_match sep g' s ||
         match s with
         | String _ s' => stars s'
         | EmptyString => false
         end) s
  end.

Definition matches (sep : ascii) (glob s : string) : bool :=
  full_match sep (parse glob) s.

End GlobSpec.

(** ** Paths and cycles in the dependency graph *)

Module GraphSpec.

(** [b] is in the set stored for [a]. *)
Definition edge (g : Analyzer.graph) (a b : string) : Prop :=
  In b (Analyzer.graph_get g a).

(** No module reaches itself along one or more edges. *)
Definition acyclic (g : Analyzer.graph) : Prop :=
  forall a, ~ tc (edge g) a a.

Definition keys (g : Analyzer.graph) : gset string :=
  list_to_set (map fst g).

End GraphSpec.

(** ** Inputs used by the examples below *)

Definition module_of_size (n : Z) (fns : list string) : Analyzer.PyModule :=
  {| Analyzer.path := "proj/m.py"; Analyzer.name := "m.py";
     Analyzer.imports := []; Analyzer.classes := [];
     Analyzer.functions := fns; Analyzer.line_count := n;
     Analyzer.layer := None |}.

Definition line_thresholds (w e : Z) : Analyzer.Thresholds :=
  {| Analyzer.lines := Some {| Analyzer.warning := Some w; Analyzer.error := Some e |};
     Analyzer.methods := None |}.

Definition analyzer_of (r : Analyzer.Rules)
    (mods : list (string * Analyzer.PyModule)) : Analyzer.ArchitectureAnalyzer :=
  {| Analyzer.rules := r; Analyzer.modules := mods;
     Analyzer.violations := []; Analyzer.dependency_graph := [] |}.

Definition rules_of_thresholds (t : Analyzer.Thresholds) : Analyzer.Rules :=
  {| Analyzer.layers := None; Analyzer.complexity_thresholds := Some t;
     Analyzer.abstraction_indicators := None |}.


Definition reviewed_lines : list string :=
  [ "# reviewed: fixed size
"; "setup()
"; "w = 640
" ].

Definition reviewed_config (k : Z) : Validator.CheckConfig :=
  {| Validator.severity_name := Some "ERROR";
     Validator.patterns := Some [Validator.Bare "640"];
     Validator.files := None;
     Validator.allowed_contexts := Some [ {| Validator.pattern := "# reviewed" |} ];
     Validator.context_lines := Some k |}.

Definition layer_rules (layer_name : string) (dirs forbidden : list string)
  : Analyzer.Rules :=
  {| Analyzer.layers :=
       Some [ (layer_name,
               {| Analyzer.directories := Some dirs;
                  Analyzer.forbidden_imports := Some forbidden |}) ];
     Analyzer.complexity_thresholds := None;
     Analyzer.abstraction_indicators := None |}.

Definition module_importing (file layer_name : string) (imported : list string)
  : string * Analyzer.PyModule :=
  (file,
   {| Analyzer.path := "proj/" ++ file; Analyzer.name := file;
      Analyzer.imports := imported; Analyzer.classes := [];
      Analyzer.functions := []; Analyzer.line_count := 10;
      Analyzer.layer := if String.eqb layer_name "" then None else Some layer_name |}).

Definition no_rules : Analyzer.Rules :=
  {| Analyzer.layers := None; Analyzer.complexity_thresholds := None;
     Analyzer.abstraction_indicators := None |}.

(** A corpus of two files, [main.py] with [import os_helpers] and
    [os_helpers.py] with [import os]. *)
Definition os_corpus : list (string * Analyzer.PyModule) :=
  [ module_importing "main.py" "" ["os_helpers"];
    module_importing "os_helpers.py" "" ["os"] ].

Definition bare_check (regexes : list string) : Validator.CheckConfig :=
  {| Validator.severity_name := Some "ERROR";
     Validator.patterns := Some (map Validator.Bare regexes);
     Validator.files := None;
     Validator.allowed_contexts := None;
     Validator.context_lines := None |}.

Definition validator_of (r : list (string * Validator.CheckConfig))
  : Validator.CodeValidator :=
  {| Validator.rules := r; Validator.findings := [] |}.

(** Two files; the second holds a line that the [code_quality] rule reports. *)
Definition two_files : list (string * option (list string)) :=
  [ ("src/a.py", Some [ "x = 1
" ]);
    ("src/b.py", Some [ "# TODO later
" ]) ].

Definition todo_finding : Validator.Finding :=
  {| Validator.severity := Validator.ERROR;
     Validator.file_path := "src/b.py";
     Validator.line_number := 1;
     Validator.rule_name := "code_quality";
     Validator.message := "Matched pattern: TODO";
     Validator.code_snippet := "# TODO later";
     Validator.suggestion := "" |}.

(** The test that [build_dependency_graph] applies to an import and a
    candidate module. *)
Definition import_matches (import_name : string) (candidate : Analyzer.PyModule)
  : bool :=
  (PyStr.contains import_name (Analyzer.dotted_path candidate)
   || PyStr.endswith (Analyzer.dotted_path candidate) import_name)%bool.

(** The graph with the edges A to B, B to C and C to A. *)
Definition three_cycle : Analyzer.graph :=
  [ ("A", ["B"]); ("B", ["C"]); ("C", ["A"]) ].

(** The graph with the edges A to B, A to C and B to C. *)
Definition three_chain : Analyzer.graph :=
  [ ("A", ["B"; "C"]); ("B", ["C"]) ].

Definition analyzer_with_graph (g : Analyzer.graph)
  : Analyzer.ArchitectureAnalyzer :=
  {| Analyzer.rules := no_rules; Analyzer.modules := [];
     Analyzer.violations := []; Analyzer.dependency_graph := g |}.

(** Six lines: a match on the first, the sentinel on the fourth. *)
Definition distant_lines : list string :=
  [ "w = 640
"; "a = 1
"; "b = 2
"; "# reviewed: fixed size
"; "c = 3
"; "d = 4
" ].

(** ** Auxiliary notions for the further properties *)

(** The discipline of a [defaultdict(set)] that is only written through
    [graph[key].add(value)]: no key twice, no element twice in a set, and no
    key with an empty set. *)
Definition graph_wf (g : Analyzer.graph) : Prop :=
  NoDup (map fst g)
  /\ Forall (fun entry => NoDup (snd entry) /\ snd entry <> []) g.

(** Every key and every element of a set is one of [names]. *)
Definition graph_within (names : list string) (g : Analyzer.graph) : Prop :=
  Forall (fun entry => In (fst entry) names
                       /\ Forall (fun b => In b names) (snd entry)) g.

(** An edge whose source is not in [visited]. *)
Definition edge_outside (g : Analyzer.graph) (visited : gset string)
    (a b : string) : Prop :=
  GraphSpec.edge g a b /\ a ∉ visited.

(** The first module of a pair lies on a cycle through the edge to the
    second. *)
Definition on_cycle (g : Analyzer.graph) (pair : string * string) : Prop :=
  GraphSpec.edge g (fst pair) (snd pair)
  /\ rtc (GraphSpec.edge g) (snd pair) (fst pair).

(** The modules of a pair, in sorted order. *)
Definition unordered (pair : string * string) : string * string :=
  Analyzer.sorted_pair (fst pair) (snd pair).

Definition violation_of_pair (pair : string * string)
  : Analyzer.ArchitectureViolation :=
  Analyzer.circular_violation (fst pair) (snd pair).

(** What holds of the state of the cycle check between two probes, [before]
    being the violations it started with: the violations added so far are
    those of a list of pairs, each an edge on a cycle, each examined, no two
    with the same two modules, and no examined edge on a cycle is missing. *)
Definition cycle_inv (g : Analyzer.graph)
    (before : list Analyzer.ArchitectureViolation)
    (st : Analyzer.cycle_state) : Prop :=
  exists pairs,
    snd st = (before ++ map violation_of_pair pairs)%list
    /\ Forall (on_cycle g) pairs
    /\ Forall (fun pair => unordered pair ∈ fst st) pairs
    /\ NoDup (map unordered pairs)
    /\ forall pair, unordered pair ∈ fst st -> on_cycle g pair ->
                    In (unordered pair) (map unordered pairs).

(** The regex that [determine_layer] makes of a directory pattern, and the
    one that [check_layer_violations] makes of a forbidden-import pattern. *)
Definition directory_regex (dir_pattern : string) : string :=
  PyStr.replace (PyStr.replace dir_pattern "**" ".*") "*" "[^/]*".

Definition forbidden_regex (forbidden_pattern : string) : string :=
  PyStr.replace (PyStr.replace forbidden_pattern "**" ".*") "*" "[^.]*".

(** The forbidden-import patterns that apply to a module: those of its layer,
    none for a module without a layer or with a layer that is not declared. *)
Definition forbidden_for (rules : Analyzer.Rules) (module : Analyzer.PyModule)
  : list string :=
  match Analyzer.layer module with
  | None => []
  | Some EmptyString => []
  | Some layer_name =>
      get_or (Analyzer.forbidden_imports
                (get_or (dict_get (get_or (Analyzer.layers rules) []) layer_name)
                   Analyzer.no_layer_info)) []
  end.

(** The violations of one module for an engine that answers [matches]. *)
Definition layer_violations_of (matches : string -> string -> bool)
    (rules : Analyzer.Rules) (entry : string * Analyzer.PyModule)
  : list Analyzer.ArchitectureViolation :=
  flat_map
    (fun import_name =>
       flat_map
         (fun forbidden_pattern =>
            if matches (forbidden_regex forbidden_pattern) import_name
            then [ Analyzer.layer_violation (fst entry)
                     (get_or (Analyzer.layer (snd entry)) "") import_name ]
            else [])
         (forbidden_for rules (snd entry)))
    (Analyzer.imports (snd entry)).

(** Rules that declare only the duplicate-logic patterns. *)
Definition duplicate_rules (threshold : option Z)
    (patterns : list Analyzer.PatternInfo) : Analyzer.Rules :=
  {| Analyzer.layers := None;
     Analyzer.complexity_thresholds := None;
     Analyzer.abstraction_indicators :=
       Some {| Analyzer.duplicate_logic :=
                 Some {| Analyzer.patterns := Some patterns;
                         Analyzer.threshold := threshold |} |} |}.

Definition analyzer_with (r : Analyzer.Rules)
    (mods : list (string * Analyzer.PyModule))
    (vs : list Analyzer.ArchitectureViolation) (g : Analyzer.graph)
  : Analyzer.ArchitectureAnalyzer :=
  {| Analyzer.rules := r; Analyzer.modules := mods;
     Analyzer.violations := vs; Analyzer.dependency_graph := g |}.

Definition pattern_info (name regex : string) : Analyzer.PatternInfo :=
  {| Analyzer.pattern_name := Some name; Analyzer.regex := Some regex;
     Analyzer.pattern_suggestion := None |}.

(** The finding that [run_check] records for a match of the pattern [pf] on
    the line numbered [fst numbered] of the file [file_path]. *)
Definition finding_at (file_path check_name : string)
    (pf : Validator.pattern_fields) (numbered : Z * string) : Validator.Finding :=
  {| Validator.severity := Validator.pf_severity pf;
     Validator.file_path := file_path;
     Validator.line_number := fst numbered;
     Validator.rule_name := check_name;
     Validator.message := Validator.pf_message pf;
     Validator.code_snippet := Validator.strip (snd numbered);
     Validator.suggestion := Validator.pf_suggestion pf |}.

(** One validator state extends another: the same rules, and the findings of
    the first followed by further ones. *)
Definition extends (self self' : Validator.CodeValidator) : Prop :=
  Validator.rules self' = Validator.rules self
  /\ exists added,
       Validator.findings self' = (Validator.findings self ++ added)%list.

(** The same check with another context-window size. *)
Definition with_context_lines (check_config : Validator.CheckConfig) (k : Z)
  : Validator.CheckConfig :=
  {| Validator.severity_name := Validator.severity_name check_config;
     Validator.patterns := Validator.patterns check_config;
     Validator.files := Validator.files check_config;
     Validator.allowed_contexts := Validator.allowed_contexts check_config;
     Validator.context_lines := Some k |}.

(** [check_architecture_rules]: the four checks, one after the other.  The
    outer [None] is the cycle check running out of recursion levels in the
    model. *)
Definition check_architecture_rules
    (re_match re_search : string -> string -> option bool)
    (fs : Analyzer.file_system) (self : Analyzer.ArchitectureAnalyzer)
  : option (result Analyzer.ArchitectureAnalyzer) :=
  match Analyzer.check_layer_violations re_match self with
  | Raise e => Some (Raise e)
  | Ok self =>
      match Analyzer.check_circular_dependencies self with
      | None => None
      | Some self =>
          Some (Ok (Analyzer.check_duplicate_logic re_search fs
                      (Analyzer.check_complexity self)))
      end
  end.

(** One analyzer state extends another: the same rules, modules and graph,
    and the violations of the first followed by further ones. *)
Definition analyzer_extends (self self' : Analyzer.ArchitectureAnalyzer) : Prop :=
  Analyzer.rules self' = Analyzer.rules self
  /\ Analyzer.modules self' = Analyzer.modules self
  /\ Analyzer.dependency_graph self' = Analyzer.dependency_graph self
  /\ exists added,
       Analyzer.violations self' = (Analyzer.violations self ++ added)%list.

(** ** print_dependency_graph and _print_deps_tree

    What is printed is the list of the arguments of the [print] calls, in
    order. *)

(** [sorted(names)] for strings. *)
Fixpoint insert_sorted (x : string) (l : list string) : list string :=
  match l with
  | [] => [x]
  | y :: rest => if String.leb x y then x :: l else y :: insert_sorted x rest
  end.

Definition sorted (l : list string) : list string :=
  fold_right insert_sorted [] l.

(** [s * n]; empty for a count that is not positive. *)
Fixpoint repeat_string (s : string) (n : nat) : string :=
  match n with
  | O => EmptyString
  | S n' => s ++ repeat_string s n'
  end.

Definition str_times (s : string) (n : Z) : string :=
  repeat_string s (Z.to_nat n).

(** The line printed for [module] at [depth]. *)
Definition tree_line (self : Analyzer.ArchitectureAnalyzer)
    (entry : string * Z) : string :=
  let '(module, depth) := entry in
  let indent := str_times "  " depth in
  let prefix := if depth >? 0 then "├─ " else "" in
  let layer_tag :=
    match dict_get (Analyzer.modules self) module with
    | Some module_info =>
        match Analyzer.layer module_info with
        | Some (String c rest) => "[" ++ String c rest ++ "]"
        | _ => ""
        end
    | None => ""
    end in
  indent ++ prefix ++ module ++ " " ++ layer_tag.

(** [for dep in deps: recurse(dep)], the printed entries one after the other. *)
Fixpoint for_each_dep (recurse : string -> option (list (string * Z)))
    (deps : list string) : option (list (string * Z)) :=
  match deps with
  | [] => Some []
  | dep :: rest =>
      match recurse dep, for_each_dep recurse rest with
      | Some printed, Some more => Some (printed ++ more)%list
      | _, _ => None
      end
  end.

(** The modules that [_print_deps_tree] prints, each with its depth, in the
    order of printing.  [None] only when [fuel] recursion levels were not
    enough. *)
Fixpoint deps_tree_entries (fuel : nat) (g : Analyzer.graph) (module : string)
    (depth max_depth : Z) (visited : gset string) : option (list (string * Z)) :=
  match fuel with
  | O => None
  | S fuel' =>
      if (depth >? max_depth) || bool_decide (module ∈ visited)
      then Some []
      else
        let visited := visited ∪ {[module]} in
        match
          for_each_dep
            (fun dep => deps_tree_entries fuel' g dep (depth + 1) max_depth visited)
            (sorted (Analyzer.graph_get g module))
        with
        | Some below => Some ((module, depth) :: below)
        | None => None
        end
  end.

(** Recursion levels that [_print_deps_tree] needs from [depth] on. *)
Definition tree_fuel (depth max_depth : Z) : nat :=
  S (Z.to_nat (max_depth - depth + 1)).

Definition _print_deps_tree (self : Analyzer.ArchitectureAnalyzer)
    (module : string) (depth max_depth : Z) (visited : gset string)
  : option (list string) :=
  option_map (map (tree_line self))
    (deps_tree_entries (tree_fuel depth max_depth)
       (Analyzer.dependency_graph self) module depth max_depth visited).

(** The modules without an incoming dependency, in the order of the modules. *)
Definition roots (self : Analyzer.ArchitectureAnalyzer) : list string :=
  List.filter
    (fun m =>
       negb (existsb (fun deps => existsb (String.eqb m) deps)
               (map snd (Analyzer.dependency_graph self))))
    (map fst (Analyzer.modules self)).

Definition print_dependency_graph (self : Analyzer.ArchitectureAnalyzer)
    (start_module : option string) (max_depth : Z) : option (list string) :=
  let header :=
    [ String "010" (repeat_string "=" 80); "DEPENDENCY GRAPH";
      repeat_string "=" 80 ++ String "010" "" ] in
  match start_module with
  | Some (String c rest) =>
      let start := String c rest in
      match dict_get (Analyzer.modules self) start with
      | Some _ =>
          option_map (app header) (_print_deps_tree self start 0 max_depth ∅)
      | None => Some (app header ["Module '" ++ start ++ "' not found"])
      end
  | _ =>
      option_map (fun trees => app header (concat trees))
        (mapM (fun root => _print_deps_tree self root 0 max_depth ∅)
           (firstn 10 (roots self)))
  end.

(** The three lines that open the printed graph. *)
Definition graph_header : list string :=
  [ String "010" (repeat_string "=" 80); "DEPENDENCY GRAPH";
    repeat_string "=" 80 ++ String "010" "" ].

(** Three modules that import one another in a circle. *)
Definition circle_corpus : list (string * Analyzer.PyModule) :=
  [ module_importing "alpha.py" "" ["beta"];
    module_importing "beta.py" "" ["gamma"];
    module_importing "gamma.py" "" ["alpha"] ].

(** ** The end of the analyzer's [main]

    [deps] and [check_rules] are the values of [--deps] and [--check-rules];
    the analysis has been run and [self] holds its violations. *)
Definition main_exit_code (deps : option string) (check_rules : bool)
    (self : Analyzer.ArchitectureAnalyzer) : Z :=
  let deps_given :=
    match deps with
    | Some (String _ _) => true
    | _ => false
    end in
  if check_rules || negb deps_given
  then Analyzer.print_violations self
  else 0.

(** * Properties *)

(** ** Sanity checks of the string and regex primitives *)

Example contains_os : PyStr.contains "os" "src.os_helpers" = true.
Proof. reflexivity. Qed.

Example endswith_db : PyStr.endswith "src.infra.db" "infra.db" = true.
Proof. reflexivity. Qed.

Example replace_double_star :
  PyStr.replace (PyStr.replace "src/**/domain" "**" ".*") "*" "[^/]*"
  = "src/.[^/]*/domain".
Proof. reflexivity. Qed.

Example slice_negative_stop : PyStr.slice [1; 2; 3; 4; 5] 1 (-1) = [2; 3; 4].
Proof. reflexivity. Qed.

Example re_match_prefix : Re.re_match "src/[^/]*" "src/a/b.py" = Some true.
Proof. reflexivity. Qed.

Example re_match_dot_is_wildcard : Re.re_match "infra.[^.]*" "infra2.other" = Some true.
Proof. reflexivity. Qed.

Example re_search_unbalanced : Re.re_search "(" "x = 1" = None.
Proof. reflexivity. Qed.

Example utf8_literal : String.length "A ↔ B" = 7%nat.
Proof. reflexivity. Qed.

Example str_of_int_1001 : str_of_int 1001 = "1001".
Proof. reflexivity. Qed.

Example with_suffix_empty_py :
  Analyzer.with_suffix_empty "proj/src/os_helpers.py" = "proj/src/os_helpers".
Proof. reflexivity. Qed.

Example with_suffix_empty_hidden : Analyzer.with_suffix_empty "a.b/.py" = "a.b/.py".
Proof. reflexivity. Qed.

Example sentinel_same_line :
  Validator.is_allowed_context "src/a.py" "w = 640  # noqa" ["w = 640  # noqa"] 1
    {| Validator.severity_name := None; Validator.patterns := None;
       Validator.files := None;
       Validator.allowed_contexts := Some [ {| Validator.pattern := "# noqa" |} ];
       Validator.context_lines := None |} = true.
Proof. reflexivity. Qed.

(** ** [in] on strings decides verbatim occurrence *)

Lemma append_cons (c : ascii) (s t : string) :
  String c s ++ t = String c (s ++ t).
Proof. reflexivity. Qed.

Lemma append_empty (t : string) : EmptyString ++ t = t.
Proof. reflexivity. Qed.

Lemma prefix_iff (sub s : string) :
  String.prefix sub s = true <-> exists post, s = sub ++ post.
Proof.
  revert s; induction sub as [|c sub IH]; intros s; simpl.
  - destruct s; split; eauto.
  - destruct s as [|d s]; simpl.
    + split; [discriminate | intros [post H]; discriminate].
    + destruct (Ascii.ascii_dec c d) as [->|Hne].
      * rewrite IH. split; intros [post H]; exists post;
          rewrite append_cons in *; congruence.
      * split; [discriminate|].
        intros [post H]. rewrite append_cons in H. congruence.
Qed.

Lemma contains_iff (sub s : string) :
  PyStr.contains sub s = true <-> PyStr.occurs_in sub s.
Proof.
  unfold PyStr.occurs_in.
  induction s as [|c s IH].
  - cbn [PyStr.contains]. rewrite orb_false_r, prefix_iff. split.
    + intros [post H]. exists EmptyString, post. exact H.
    + intros [pre [post H]]. destruct pre; [eauto | discriminate].
  - cbn [PyStr.contains]. rewrite orb_true_iff, IH, prefix_iff. split.
    + intros [[post H] | [pre [post H]]].
      * exists EmptyString, post. exact H.
      * exists (String c pre), post. rewrite append_cons. congruence.
    + intros [pre [post H]]. destruct pre as [|d pre].
      * left. eauto.
      * right. exists pre, post. rewrite append_cons in H. congruence.
Qed.

(** ** The run result *)

Lemma filter_nonempty_iff {A} (p : A -> bool) (l : list A) :
  List.filter p l <> [] <-> exists x, In x l /\ p x = true.
Proof.
  split.
  - destruct (List.filter p l) as [|x r] eqn:E; [congruence | intros _].
    exists x. apply filter_In. rewrite E. now left.
  - intros [x Hx] E. apply filter_In in Hx. rewrite E in Hx. destruct Hx.
Qed.

Lemma Severity_eqb_eq (a b : Validator.Severity) :
  Validator.Severity_eqb a b = true <-> a = b.
Proof. destruct a, b; simpl; split; congruence. Qed.

(** C8. The run result derived from the value a report function returns is
    "fail" exactly when some finding has severity ERROR, for the
    architecture analyzer and for the code validator alike; findings that are
    all WARNING or INFO, or no findings at all, give "pass". *)
Theorem run_fails_iff_error_finding :
  (forall self : Analyzer.ArchitectureAnalyzer,
      run_result_of (exit_status (Some (Analyzer.print_violations self))) = fail
      <-> exists v, In v (Analyzer.violations self)
                    /\ Analyzer.severity v = "ERROR")
  /\
  (forall self : Validator.CodeValidator,
      run_result_of (exit_status (Validator.print_summary self)) = fail
      <-> exists f, In f (Validator.findings self)
                    /\ Validator.severity f = Validator.ERROR).
Proof.
  split; intros self.
  - unfold Analyzer.print_violations.
    pose proof (filter_nonempty_iff
                  (fun v => String.eqb (Analyzer.severity v) "ERROR")
                  (Analyzer.violations self)) as F.
    setoid_rewrite String.eqb_eq in F. rewrite <- F.
    destruct (Analyzer.violations self) as [|v vs]; [cbv; intuition congruence|].
    destruct (List.filter _ (v :: vs)); cbv; intuition congruence.
  - unfold Validator.print_summary.
    pose proof (filter_nonempty_iff
                  (fun f => Validator.Severity_eqb (Validator.severity f) Validator.ERROR)
                  (Validator.findings self)) as F.
    setoid_rewrite Severity_eqb_eq in F. rewrite <- F.
    destruct (Validator.findings self) as [|f fs]; [cbv; intuition congruence|].
    destruct (List.filter _ (f :: fs)); cbv; intuition congruence.
Qed.

(** ** Complexity thresholds *)

Lemma check_complexity_appends (self : Analyzer.ArchitectureAnalyzer) :
  let t := get_or (Analyzer.complexity_thresholds (Analyzer.rules self))
             Analyzer.no_thresholds in
  Analyzer.violations (Analyzer.check_complexity self)
  = (Analyzer.violations self
     ++ flat_map (fun entry =>
                    Analyzer.check_line_count t (fst entry) (snd entry)
                    ++ Analyzer.check_method_count t (fst entry) (snd entry))
          (Analyzer.modules self))%list.
Proof.
  unfold Analyzer.check_complexity. cbn [Analyzer.violations Analyzer.with_violations].
  generalize (Analyzer.violations self) as vs.
  induction (Analyzer.modules self) as [|[n m] mods IH]; intros vs; simpl.
  - now rewrite app_nil_r.
  - rewrite IH. now rewrite <- !app_assoc.
Qed.

(** C4, as the code has it: a module exactly at the warning threshold is
    reported nowhere. *)
Lemma line_count_at_warning_is_silent :
  Analyzer.violations
    (Analyzer.check_complexity
       (analyzer_of (rules_of_thresholds (line_thresholds 500 1000))
          [("m.py", module_of_size 500 [])])) = []
  /\ ~ (exists v,
          In v (Analyzer.check_line_count (line_thresholds 500 1000) "m.py"
                  (module_of_size 500 []))
          /\ Analyzer.severity v = "WARNING").
Proof.
  split; [reflexivity|]. intros [v [[] _]].
Qed.

(** C4, amended.  With [w] and [e] the warning and error thresholds for
    lines: a line count above [e] gives exactly one finding, of severity
    ERROR; a line count above [w] and not above [e] gives exactly one
    finding, of severity WARNING; a line count that is at most [w] and at
    most [e], so one equal to [w] too, gives none.  A threshold that is
    missing is 1000 for [e], 500 for [w] and 30 for the error threshold on
    the method count. *)
Theorem line_count_findings (t : Analyzer.Thresholds) (module_name : string)
    (m : Analyzer.PyModule) :
  let w := Analyzer.lines_warning t in
  let e := Analyzer.lines_error t in
  let found := Analyzer.check_line_count t module_name m in
  (e < Analyzer.line_count m ->
     exists v, found = [v] /\ Analyzer.severity v = "ERROR")
  /\ (w < Analyzer.line_count m <= e ->
     exists v, found = [v] /\ Analyzer.severity v = "WARNING")
  /\ (Analyzer.line_count m <= w -> Analyzer.line_count m <= e -> found = [])
  /\ (Analyzer.lines t = None ->
      w = 500 /\ e = 1000)
  /\ (forall tier, Analyzer.lines t = Some tier ->
      (Analyzer.warning tier = None -> w = 500)
      /\ (Analyzer.error tier = None -> e = 1000))
  /\ (Analyzer.methods t = None -> Analyzer.methods_error t = 30)
  /\ (forall tier, Analyzer.methods t = Some tier ->
      Analyzer.error tier = None -> Analyzer.methods_error t = 30).
Proof.
  cbv zeta. unfold Analyzer.check_line_count.
  unfold Analyzer.lines_warning, Analyzer.lines_error, Analyzer.methods_error.
  destruct (Z.gtb_spec (Analyzer.line_count m)
              (get_or (Analyzer.error (get_or (Analyzer.lines t) Analyzer.no_tier)) 1000));
    destruct (Z.gtb_spec (Analyzer.line_count m)
                (get_or (Analyzer.warning (get_or (Analyzer.lines t) Analyzer.no_tier)) 500)).
  all: split; [intros ?; try lia; eexists; split; reflexivity|].
  all: split; [intros ?; try lia; eexists; split; reflexivity|].
  all: split; [intros ? ?; try lia; reflexivity|].
  all: split; [now intros ->|].
  all: split; [intros tier ->; cbn [get_or]; split; now intros ->|].
  all: split; [now intros ->|].
  all: intros tier -> E; cbn [get_or]; now rewrite E.
Qed.

Lemma line_count_findings_witness :
  exists v,
    Analyzer.check_line_count (line_thresholds 500 1000) "m.py"
      (module_of_size 1001 []) = [v]
    /\ Analyzer.severity v = "ERROR".
Proof.
  destruct (line_count_findings (line_thresholds 500 1000) "m.py"
              (module_of_size 1001 [])) as [H _].
  apply H. vm_compute. reflexivity.
Defined.

(** ** The context window of [is_allowed_context] *)

Lemma lines_between_numbered (l : list string) (c lo hi : Z) :
  ContextSpec.lines_between lo hi (ContextSpec.numbered_from c l)
  = firstn (Z.to_nat (hi + 1 - Z.max lo c)) (skipn (Z.to_nat (lo - c)) l).
Proof.
  unfold ContextSpec.lines_between.
  revert c; induction l as [|x r IH]; intros c.
  - now rewrite skipn_nil, firstn_nil.
  - cbn [ContextSpec.numbered_from List.filter fst].
    destruct (Z.leb_spec lo c) as [Hlo|Hlo]; cbn [andb].
    + replace (Z.to_nat (lo - c)) with O by lia. cbn [skipn].
      destruct (Z.leb_spec c hi) as [Hhi|Hhi]; cbn [map snd]; rewrite IH.
      * replace (Z.to_nat (hi + 1 - Z.max lo c))
          with (S (Z.to_nat (hi + 1 - Z.max lo (c + 1)))) by lia.
        replace (Z.to_nat (lo - (c + 1))) with O by lia. reflexivity.
      * replace (Z.to_nat (hi + 1 - Z.max lo c)) with O by lia.
        replace (Z.to_nat (hi + 1 - Z.max lo (c + 1))) with O by lia.
        reflexivity.
    + rewrite IH.
      replace (Z.to_nat (lo - c)) with (S (Z.to_nat (lo - (c + 1)))) by lia.
      replace (Z.max lo (c + 1)) with (Z.max lo c) by lia. reflexivity.
Qed.

Lemma slice_in_range {A} (l : list A) (start stop : Z) :
  0 <= start <= Validator.len l -> 0 <= stop <= Validator.len l ->
  PyStr.slice l start stop
  = firstn (Z.to_nat (stop - start)) (skipn (Z.to_nat start) l).
Proof.
  unfold PyStr.slice, PyStr.slice_index, Validator.len. intros Hs He.
  destruct (Z.ltb_spec start 0); [lia|].
  destruct (Z.ltb_spec stop 0); [lia|].
  now rewrite !Z.min_l by lia.
Qed.

Lemma window_bounds (all_lines : list string) (n k : Z) :
  1 <= n <= Validator.len all_lines -> 0 <= k ->
  0 <= Validator.window_start n k < n
  /\ n <= Validator.window_end all_lines n k <= Validator.len all_lines.
Proof. unfold Validator.window_start, Validator.window_end. lia. Qed.

Lemma code_window_is_spec_window (all_lines : list string) (n k : Z) :
  1 <= n <= Validator.len all_lines -> 0 <= k ->
  PyStr.slice all_lines (Validator.window_start n k)
    (Validator.window_end all_lines n k)
  = ContextSpec.window all_lines n k.
Proof.
  intros Hn Hk. pose proof (window_bounds all_lines n k Hn Hk) as B.
  rewrite slice_in_range by lia.
  unfold ContextSpec.window. rewrite lines_between_numbered.
  unfold Validator.window_start, Validator.window_end, Validator.len in *.
  replace (Z.to_nat (n - k - 1)) with (Z.to_nat (Z.max 0 (n - k - 1))) by lia.
  set (s := Z.to_nat (Z.max 0 (n - k - 1))).
  assert (Hlen : List.length (skipn s all_lines) = (List.length all_lines - s)%nat)
    by apply length_skipn.
  destruct (Z.le_gt_cases (n + k) (Z.of_nat (List.length all_lines))) as [L|L].
  - f_equal. lia.
  - rewrite !firstn_all2; [reflexivity | lia | lia].
Qed.

(** C10. For a line number within the file and a context-window size that is
    not negative, the bounds of the slice taken by [is_allowed_context] lie
    between 0 and the number of lines, the lower one below the upper one;
    Python's index adjustment never comes into play, every index of the slice
    is an index of the list, and the window holds the matching line. *)
Theorem context_window_is_clamped (all_lines : list string) (n k : Z) :
  1 <= n <= Validator.len all_lines -> 0 <= k ->
  let start := Validator.window_start n k in
  let end_ := Validator.window_end all_lines n k in
  0 <= start /\ start < end_ /\ end_ <= Validator.len all_lines
  /\ start <= n - 1 < end_
  /\ PyStr.slice all_lines start end_
     = firstn (Z.to_nat (end_ - start)) (skipn (Z.to_nat start) all_lines)
  /\ (forall i, start <= i < end_ ->
        exists l, nth_error all_lines (Z.to_nat i) = Some l)
  /\ (forall file_path line check_config,
        Validator.context_lines check_config = Some k ->
        exists b,
          Validator.is_allowed_context file_path line all_lines n check_config = b).
Proof.
  intros Hn Hk start end_.
  pose proof (window_bounds all_lines n k Hn Hk) as B. fold start end_ in B.
  repeat (split; [lia|]).
  split; [apply slice_in_range; lia|].
  split; [|eauto].
  intros i Hi.
  destruct (nth_error all_lines (Z.to_nat i)) as [l|] eqn:E; [eauto|].
  apply nth_error_None in E. unfold Validator.len in *. lia.
Qed.

Lemma context_window_is_clamped_witness :
  0 <= Validator.window_start 3 2
  /\ Validator.window_start 3 2 < Validator.window_end reviewed_lines 3 2
  /\ Validator.window_end reviewed_lines 3 2 <= Validator.len reviewed_lines.
Proof.
  assert (H1 : 1 <= 3 <= Validator.len reviewed_lines)
    by (vm_compute; intuition discriminate).
  assert (H2 : 0 <= 2) by lia.
  destruct (context_window_is_clamped reviewed_lines 3 2 H1 H2)
    as (A & B & C & _).
  exact (conj A (conj B C)).
Defined.

(** ** Allowed contexts suppress a finding *)

Lemma is_allowed_in_cons (c : Validator.Context)
    (rest : list Validator.Context) (file_path line : string)
    (all_lines : list string) (n : Z) (check_config : Validator.CheckConfig) :
  Validator.is_allowed_in (c :: rest) file_path line all_lines n check_config
  = (String.eqb (Validator.pattern c) "tests/" && PyStr.contains "tests/" file_path
     || PyStr.contains (Validator.pattern c) line
     || PyStr.contains (Validator.pattern c)
          (PyStr.join
             (PyStr.slice all_lines
                (Validator.window_start n
                   (get_or (Validator.context_lines check_config) 2))
                (Validator.window_end all_lines n
                   (get_or (Validator.context_lines check_config) 2))))
     || Validator.is_allowed_in rest file_path line all_lines n check_config)%bool.
Proof.
  cbn [Validator.is_allowed_in].
  destruct (_ && _)%bool; [reflexivity|].
  destruct (PyStr.contains (Validator.pattern c) line); [reflexivity|].
  now destruct (PyStr.contains (Validator.pattern c) (PyStr.join _)).
Qed.

Lemma is_allowed_in_iff (allowed : list Validator.Context)
    (file_path line : string) (all_lines : list string) (n : Z)
    (check_config : Validator.CheckConfig) :
  1 <= n <= Validator.len all_lines ->
  0 <= get_or (Validator.context_lines check_config) 2 ->
  Validator.is_allowed_in allowed file_path line all_lines n check_config = true
  <-> exists context,
        In context allowed
        /\ ContextSpec.satisfied (Validator.pattern context) file_path line
             all_lines n (get_or (Validator.context_lines check_config) 2).
Proof.
  intros Hn Hk. unfold ContextSpec.satisfied.
  rewrite <- (code_window_is_spec_window all_lines n _ Hn Hk).
  induction allowed as [|c rest IH].
  - split; [discriminate | intros [c [[] _]]].
  - rewrite is_allowed_in_cons, !orb_true_iff, andb_true_iff, String.eqb_eq,
      !contains_iff, IH.
    unfold PyStr.join. split.
    + intros [[[H|H]|H]|[c' [Hin H]]].
      * exists c. split; [now left | tauto].
      * exists c. split; [now left | tauto].
      * exists c. split; [now left | tauto].
      * exists c'. split; [now right | exact H].
    + intros [c' [[<-|Hin] H]]; [tauto | right; eauto].
Qed.

Lemma append_one_differs {A} (l : list A) (x : A) : (l ++ [x])%list <> l.
Proof.
  intros E. apply (f_equal (@List.length A)) in E.
  rewrite length_app in E. simpl in E. lia.
Qed.

(** C5, as the code has it: with [context_lines = -3] the slice taken for
    a match on line 1 of six lines is [all_lines[3:-2]], the fourth line; a
    sentinel there suppresses the finding although it is neither in the
    matching line nor in any line of a window around line 1. *)
Lemma negative_context_lines_reach_elsewhere :
  Validator.is_allowed_context "src/view.py" "w = 640
" distant_lines 1 (reviewed_config (-3)) = true
  /\ Validator.scan_line Re.re_search "src/view.py" distant_lines
       "hardcoded_pixel_sizes" (reviewed_config (-3))
       {| Validator.pf_pattern := Some "640";
          Validator.pf_message := "Matched pattern: 640";
          Validator.pf_suggestion := "";
          Validator.pf_severity := Validator.ERROR |}
       "w = 640
" (1, []) = Ok (2, [])
  /\ ~ ContextSpec.exempt "src/view.py" "w = 640
" distant_lines 1 (reviewed_config (-3)).
Proof.
  split; [reflexivity|]. split; [reflexivity|].
  intros [context [Hin Hsat]].
  destruct Hin as [<-|[]]. unfold ContextSpec.satisfied in Hsat.
  cbn [Validator.pattern] in Hsat.
  destruct Hsat as [[H _]|[H|H]]; [discriminate| |];
    apply (proj2 (contains_iff _ _)) in H; vm_compute in H; discriminate.
Qed.

(** C5, amended.  For a context-window size that is not negative: when a
    pattern matches line [n] of a file, the scan of that line leaves the
    findings as they were exactly when some allowed context is satisfied (its
    pattern is ["tests/"] and the path contains ["tests/"], or its pattern
    occurs in the line, or it occurs in the text of the lines [n - k] to
    [n + k]); when none is satisfied the scan records the finding for line
    [n], or, for a file given by an absolute path, raises.  A sentinel two
    lines above the match exempts it for [k = 2] and not for [k = 1]. *)
Theorem finding_suppressed_iff_allowed_context :
  (forall (re_search : string -> string -> option bool)
          (file_path check_name line regex : string) (lines : list string)
          (check_config : Validator.CheckConfig) (pf : Validator.pattern_fields)
          (n : Z) (fs : list Validator.Finding),
      Validator.pf_pattern pf = Some regex ->
      re_search regex line = Some true ->
      1 <= n <= Validator.len lines ->
      0 <= get_or (Validator.context_lines check_config) 2 ->
      (Validator.is_allowed_context file_path line lines n check_config = true
       <-> ContextSpec.exempt file_path line lines n check_config)
      /\ (Validator.scan_line re_search file_path lines check_name check_config
            pf line (n, fs) = Ok (n + 1, fs)
          <-> ContextSpec.exempt file_path line lines n check_config)
      /\ (~ ContextSpec.exempt file_path line lines n check_config ->
          Validator.scan_line re_search file_path lines check_name check_config
            pf line (n, fs)
          = if String.prefix "/" file_path
            then Raise IndexError
            else Ok (n + 1,
                     (fs ++ [finding_at file_path check_name pf (n, line)])%list)))
  /\ Validator.is_allowed_context "src/view.py" "w = 640
" reviewed_lines 3 (reviewed_config 2) = true
  /\ Validator.is_allowed_context "src/view.py" "w = 640
" reviewed_lines 3 (reviewed_config 1) = false.
Proof.
  split; [|split; reflexivity].
  intros re_search file_path check_name line regex lines check_config pf n fs
    Hpat Hmatch Hn Hk.
  assert (A : Validator.is_allowed_context file_path line lines n check_config = true
              <-> ContextSpec.exempt file_path line lines n check_config)
    by (apply is_allowed_in_iff; assumption).
  split; [exact A|]. rewrite <- A.
  unfold Validator.scan_line. rewrite Hpat, Hmatch.
  destruct (Validator.is_allowed_context file_path line lines n check_config).
  - split; [split; reflexivity|]. intros H. now destruct H.
  - unfold Validator.finding_path.
    destruct (String.prefix "/" file_path); cbn.
    + split; [split; discriminate | reflexivity].
    + split; [|reflexivity]. split; [|discriminate].
      intros E. injection E as E. now apply append_one_differs in E.
Qed.

Lemma finding_suppressed_iff_allowed_context_witness :
  Validator.scan_line Re.re_search "src/view.py" reviewed_lines
    "hardcoded_pixel_sizes" (reviewed_config 1)
    {| Validator.pf_pattern := Some "640"; Validator.pf_message := "Matched pattern: 640";
       Validator.pf_suggestion := ""; Validator.pf_severity := Validator.ERROR |}
    "w = 640
" (3, [])
  = Ok (3 + 1,
        [ {| Validator.severity := Validator.ERROR;
             Validator.file_path := "src/view.py";
             Validator.line_number := 3;
             Validator.rule_name := "hardcoded_pixel_sizes";
             Validator.message := "Matched pattern: 640";
             Validator.code_snippet := "w = 640";
             Validator.suggestion := "" |} ]).
Proof.
  destruct finding_suppressed_iff_allowed_context as [H _].
  destruct (H Re.re_search "src/view.py" "hardcoded_pixel_sizes" "w = 640
" "640" reviewed_lines (reviewed_config 1)
              {| Validator.pf_pattern := Some "640";
                 Validator.pf_message := "Matched pattern: 640";
                 Validator.pf_suggestion := "";
                 Validator.pf_severity := Validator.ERROR |} 3 [])
    as (A & _ & C).
  - reflexivity.
  - reflexivity.
  - vm_compute. intuition discriminate.
  - vm_compute. discriminate.
  - apply C. intros E. apply A in E. vm_compute in E. discriminate.
Defined.

(** ** Layer classification *)

Section LayerClassifier.

Variable re_match : string -> string -> option bool.

Lemma determine_layer_unmatched (layers_config : list (string * Analyzer.LayerInfo))
    (rel_path : string) :
  Forall (fun entry =>
            Analyzer.directories_match re_match
              (get_or (Analyzer.directories (snd entry)) []) rel_path = Ok false)
    layers_config ->
  Analyzer.determine_layer_in re_match layers_config rel_path = Ok None.
Proof.
  induction 1 as [|[layer_name info] rest H _ IH]; [reflexivity|].
  cbn [Analyzer.determine_layer_in]. simpl in H. now rewrite H.
Qed.

Lemma determine_layer_first_match
    (before after : list (string * Analyzer.LayerInfo))
    (layer_name : string) (info : Analyzer.LayerInfo) (rel_path : string) :
  Forall (fun entry =>
            Analyzer.directories_match re_match
              (get_or (Analyzer.directories (snd entry)) []) rel_path = Ok false)
    before ->
  Analyzer.directories_match re_match
    (get_or (Analyzer.directories info) []) rel_path = Ok true ->
  Analyzer.determine_layer_in re_match (before ++ (layer_name, info) :: after)%list
    rel_path = Ok (Some layer_name).
Proof.
  intros Hb Hm. induction Hb as [|[n i] rest H _ IH].
  - cbn [app Analyzer.determine_layer_in]. now rewrite Hm.
  - cbn [app Analyzer.determine_layer_in]. simpl in H. now rewrite H.
Qed.

End LayerClassifier.

(** C2, at a failing input.  The directory pattern [src/**/*.py] is rewritten
    to the regex [src/.[^/]*/[^/]*.py], the second [replace] having rewritten
    the star that the first one produced; the path [src/a/b/m.py], which the
    glob matches with [**] standing for the two segments [a/b], gets no
    layer, while [src/a/m.py] gets the layer. *)
Theorem double_star_spans_one_segment_only :
  PyStr.replace (PyStr.replace "src/**/*.py" "**" ".*") "*" "[^/]*"
  = "src/.[^/]*/[^/]*.py"
  /\ GlobSpec.matches "/" "src/**/*.py" "src/a/b/m.py" = true
  /\ Analyzer.determine_layer Re.re_match
       (layer_rules "domain" ["src/**/*.py"] []) "src/a/b/m.py" = Ok None
  /\ Analyzer.determine_layer Re.re_match
       (layer_rules "domain" ["src/**/*.py"] []) "src/a/m.py" = Ok (Some "domain").
Proof. repeat split; reflexivity. Qed.

(** ** Layer violations *)

(** C3, at a failing input.  With [forbidden_imports: ["infra.*"]] for layer
    [domain], the pattern becomes the regex [infra.[^.]*], whose dot matches
    any character: the import [infra.db] gives one ERROR finding, and the
    import [infra2.other] gives one as well. *)
Theorem forbidden_dot_matches_any_character :
  (exists v,
      Analyzer.check_layer_violations Re.re_match
        (analyzer_of (layer_rules "domain" [] ["infra.*"])
           [module_importing "core.py" "domain" ["infra.db"]])
      = Ok (Analyzer.with_violations
              (analyzer_of (layer_rules "domain" [] ["infra.*"])
                 [module_importing "core.py" "domain" ["infra.db"]]) [v])
      /\ Analyzer.severity v = "ERROR")
  /\ (exists v,
      Analyzer.check_layer_violations Re.re_match
        (analyzer_of (layer_rules "domain" [] ["infra.*"])
           [module_importing "core.py" "domain" ["infra2.other"]])
      = Ok (Analyzer.with_violations
              (analyzer_of (layer_rules "domain" [] ["infra.*"])
                 [module_importing "core.py" "domain" ["infra2.other"]]) [v])
      /\ Analyzer.severity v = "ERROR"
      /\ Analyzer.message v = "Layer 'domain' should not import 'infra2.other'")
  /\ GlobSpec.matches "." "infra.*" "infra2.other" = false.
Proof.
  split; [|split]; [eexists; split; reflexivity | | reflexivity].
  eexists; repeat split; reflexivity.
Qed.

(** ** The dependency graph *)

Lemma unresolved_import_adds_nothing (module_name import_name : string)
    (candidates : list (string * Analyzer.PyModule)) (g : Analyzer.graph) :
  Forall (fun candidate => import_matches import_name (snd candidate) = false)
    candidates ->
  fold_left (fun g candidate =>
               Analyzer.resolve_import module_name import_name candidate g)
    candidates g = g.
Proof.
  induction 1 as [|[other_name other] rest H _ IH]; [reflexivity|].
  cbn [fold_left Analyzer.resolve_import].
  unfold import_matches in H. simpl in H. now rewrite H.
Qed.

(** C6, at a failing input.  [os_helpers.py] imports [os]; its own dotted
    path [proj.os_helpers] contains [os], and the loop over the candidates
    does not leave the importing module out: the graph gets the edge from
    [os_helpers.py] to itself, which the cycle check then reports. *)
Theorem module_resolves_to_itself :
  Analyzer.dependency_graph
    (Analyzer.build_dependency_graph (analyzer_of no_rules os_corpus))
  = [ ("main.py", ["os_helpers.py"]); ("os_helpers.py", ["os_helpers.py"]) ]
  /\ In "os_helpers.py"
       (Analyzer.graph_get
          (Analyzer.dependency_graph
             (Analyzer.build_dependency_graph (analyzer_of no_rules os_corpus)))
          "os_helpers.py")
  /\ option_map Analyzer.violations
       (Analyzer.check_circular_dependencies
          (Analyzer.build_dependency_graph (analyzer_of no_rules os_corpus)))
     = Some [ Analyzer.circular_violation "os_helpers.py" "os_helpers.py" ].
Proof.
  split; [reflexivity|]. split; [now left|]. vm_compute. reflexivity.
Qed.

(** C9, at a failing input.  In the same corpus the import [os] is not
    contained in the dotted path of the other module, and no dotted path ends
    with it; the construction still adds an edge for it, the one from
    [os_helpers.py] to itself. *)
Theorem import_of_own_substring_adds_edge :
  import_matches "os" (snd (module_importing "main.py" "" ["os_helpers"])) = false
  /\ Forall (fun candidate =>
               PyStr.endswith (Analyzer.dotted_path (snd candidate)) "os" = false)
       os_corpus
  /\ fold_left (fun g candidate =>
                  Analyzer.resolve_import "os_helpers.py" "os" candidate g)
       os_corpus [] = [ ("os_helpers.py", ["os_helpers.py"]) ].
Proof.
  split; [reflexivity|]. split; [|reflexivity].
  repeat constructor.
Qed.

(** ** A regex that does not compile *)

Section BadRegex.

Variable re_search : string -> string -> option bool.

Lemma scan_pattern_bad_regex (file_path check_name regex line : string)
    (rest : list string) (check_config : Validator.CheckConfig)
    (severity : Validator.Severity) (fs : list Validator.Finding) :
  re_search regex line = None ->
  Validator.scan_pattern re_search file_path (line :: rest) check_name
    check_config severity (Validator.Bare regex) fs = Raise ReError.
Proof.
  intros H. unfold Validator.scan_pattern. cbn. now rewrite H.
Qed.

Lemma duplicate_logic_swallows_bad_regex (fs : Analyzer.file_system)
    (regex : string) (m : Analyzer.PyModule) :
  (forall content, re_search regex content = None) ->
  Analyzer.module_matches re_search fs (Some regex) m = false.
Proof.
  intros H. unfold Analyzer.module_matches.
  destruct (dict_get fs (Analyzer.path m)); [now rewrite H | reflexivity].
Qed.

End BadRegex.

(** C7, at a failing input.  The rule [hardcoded_config] has the pattern [(],
    which does not compile; [re.search] raises on the first line scanned, and
    nothing in [run_check], [validate_file] or [validate_directory] catches
    it: the run ends there.  Without that rule the same run reports the
    [code_quality] finding. *)
Theorem bad_regex_aborts_validation :
  Validator.validate_directory Re.re_search
    (validator_of [ ("hardcoded_config", bare_check ["("]);
                    ("code_quality", bare_check ["TODO"]) ])
    two_files None = Raise ReError
  /\ Validator.validate_directory Re.re_search
       (validator_of [ ("code_quality", bare_check ["TODO"]) ])
       two_files None
     = Ok (Validator.with_findings
             (validator_of [ ("code_quality", bare_check ["TODO"]) ])
             [ todo_finding ]).
Proof. split; reflexivity. Qed.

(** ** Circular dependencies *)

(** C1, as the code has it: on the cycle through A, B and C the check reports
    three findings, one for each pair of modules joined by an edge. *)
Lemma three_cycle_reported_pairwise :
  option_map Analyzer.violations
    (Analyzer.check_circular_dependencies (analyzer_with_graph three_cycle))
  = Some [ Analyzer.circular_violation "A" "B";
           Analyzer.circular_violation "B" "C";
           Analyzer.circular_violation "C" "A" ]
  /\ ~ (exists v,
          option_map Analyzer.violations
            (Analyzer.check_circular_dependencies (analyzer_with_graph three_cycle))
          = Some [v]).
Proof.
  assert (E : option_map Analyzer.violations
                (Analyzer.check_circular_dependencies (analyzer_with_graph three_cycle))
              = Some [ Analyzer.circular_violation "A" "B";
                       Analyzer.circular_violation "B" "C";
                       Analyzer.circular_violation "C" "A" ])
    by (vm_compute; reflexivity).
  split; [exact E|]. intros [v H]. rewrite E in H. discriminate.
Qed.

Lemma any_neighbor_true (probe : string -> option bool) (ns : list string) :
  Analyzer.any_neighbor probe ns = Some true ->
  exists n, In n ns /\ probe n = Some true.
Proof.
  induction ns as [|n ns IH]; cbn [Analyzer.any_neighbor]; [discriminate|].
  destruct (probe n) as [[|]|] eqn:E; [|intros H|discriminate].
  - intros _. exists n. split; [now left | exact E].
  - destruct (IH H) as [n' [Hin Hp]]. exists n'. split; [now right | exact Hp].
Qed.

Lemma any_neighbor_total (probe : string -> option bool) (ns : list string) :
  (forall n, In n ns -> is_Some (probe n)) ->
  is_Some (Analyzer.any_neighbor probe ns).
Proof.
  induction ns as [|n ns IH]; intros H; cbn [Analyzer.any_neighbor]; [eauto|].
  destruct (H n (or_introl eq_refl)) as [[|] E]; rewrite E; [eauto|].
  apply IH. intros n' Hn'. apply H. now right.
Qed.

(** A positive answer of [has_path] is a path in the graph. *)
Lemma has_path_sound (g : Analyzer.graph) (fuel : nat) (start end_ : string)
    (visited : gset string) :
  Analyzer.has_path fuel g start end_ visited = Some true ->
  rtc (GraphSpec.edge g) start end_.
Proof.
  revert start visited.
  induction fuel as [|fuel IH]; intros start visited; cbn [Analyzer.has_path];
    [discriminate|].
  destruct (decide (start = end_)) as [->|_]; [intros _; apply rtc_refl|].
  destruct (decide (start ∈ visited)) as [|_]; [discriminate|].
  intros H. apply any_neighbor_true in H. destruct H as [n [Hin Hp]].
  apply rtc_l with n; [exact Hin | eapply IH, Hp].
Qed.

Lemma graph_get_key (g : Analyzer.graph) (a b : string) :
  In b (Analyzer.graph_get g a) -> a ∈ GraphSpec.keys g.
Proof.
  unfold Analyzer.graph_get, GraphSpec.keys.
  induction g as [|[k vs] g' IH]; cbn [dict_get get_or map fst]; [intros []|].
  rewrite list_to_set_cons.
  destruct (String.eqb_spec k a) as [->|_].
  - intros _. apply elem_of_union_l, elem_of_singleton. reflexivity.
  - intros H. apply elem_of_union_r, IH, H.
Qed.

(** [has_path] answers once the fuel exceeds the number of keys that are
    not yet in [visited]. *)
Lemma has_path_total (g : Analyzer.graph) (fuel : nat) (start end_ : string)
    (visited : gset string) :
  (size (GraphSpec.keys g ∖ visited) < fuel)%nat ->
  is_Some (Analyzer.has_path fuel g start end_ visited).
Proof.
  revert start visited.
  induction fuel as [|fuel IH]; intros start visited Hsize; [lia|].
  cbn [Analyzer.has_path].
  destruct (decide (start = end_)) as [|_]; [eauto|].
  destruct (decide (start ∈ visited)) as [|Hfresh]; [eauto|].
  apply any_neighbor_total. intros n Hn. apply IH.
  apply graph_get_key in Hn.
  assert (GraphSpec.keys g ∖ (visited ∪ {[start]}) ⊂ GraphSpec.keys g ∖ visited)
    as Hsub.
  { split.
    - intros x. rewrite !elem_of_difference, elem_of_union. tauto.
    - intros Hall. specialize (Hall start).
      rewrite !elem_of_difference, elem_of_union, elem_of_singleton in Hall.
      tauto. }
  apply subset_size in Hsub. lia.
Qed.

Lemma size_keys (g : Analyzer.graph) : (size (GraphSpec.keys g) <= List.length g)%nat.
Proof.
  unfold GraphSpec.keys.
  induction g as [|[k vs] g' IH]; cbn [map fst List.length].
  - now rewrite list_to_set_nil, size_empty.
  - rewrite list_to_set_cons, size_union_alt, size_singleton.
    assert (size (list_to_set (map fst g') ∖ {[k]} : gset string)
            <= size (list_to_set (map fst g') : gset string))%nat
      by (apply subseteq_size; intros x; rewrite elem_of_difference; tauto).
    lia.
Qed.

(** The probe made by the cycle check always answers. *)
Lemma has_path_answers (g : Analyzer.graph) (start end_ : string) :
  is_Some (Analyzer.has_path (S (List.length g)) g start end_ ∅).
Proof.
  apply has_path_total.
  assert (size (GraphSpec.keys g ∖ ∅) <= size (GraphSpec.keys g))%nat
    by (apply subseteq_size; intros x; rewrite elem_of_difference; tauto).
  pose proof (size_keys g). lia.
Qed.

Lemma check_edge_acyclic (g : Analyzer.graph) (Hacyclic : GraphSpec.acyclic g)
    (a b : string) (st : Analyzer.cycle_state) :
  GraphSpec.edge g a b ->
  exists checked,
    Analyzer.check_edge g a b st = Some (checked, snd st).
Proof.
  intros Hedge. destruct st as [checked vs]. cbn [Analyzer.check_edge snd].
  destruct (decide (Analyzer.sorted_pair a b ∈ checked)) as [|_]; [eauto|].
  destruct (has_path_answers g b a) as [[|] E]; rewrite E; [|eauto].
  exfalso. apply (Hacyclic a).
  eapply tc_rtc_r; [apply tc_once, Hedge | eapply has_path_sound, E].
Qed.

Lemma check_edges_acyclic (g : Analyzer.graph) (Hacyclic : GraphSpec.acyclic g)
    (a : string) (bs : list string)
    (st : Analyzer.cycle_state) :
  (forall b, In b bs -> GraphSpec.edge g a b) ->
  exists checked,
    Analyzer.for_each_opt bs (Analyzer.check_edge g a) st
    = Some (checked, snd st).
Proof.
  revert st. induction bs as [|b bs IH]; intros st H;
    cbn [Analyzer.for_each_opt].
  - exists (fst st). now destruct st.
  - destruct (check_edge_acyclic g Hacyclic a b st) as [checked E];
      [apply H; now left|].
    rewrite E.
    destruct (IH (checked, snd st)) as [checked' E'];
      [intros b' Hb'; apply H; now right|].
    rewrite E'. eauto.
Qed.

Lemma check_modules_acyclic (g : Analyzer.graph) (Hacyclic : GraphSpec.acyclic g)
    (ks : list string) (st : Analyzer.cycle_state) :
  exists checked,
    Analyzer.for_each_opt ks
      (fun module_a =>
         Analyzer.for_each_opt (Analyzer.graph_get g module_a)
           (Analyzer.check_edge g module_a)) st
    = Some (checked, snd st).
Proof.
  revert st. induction ks as [|a ks IH]; intros st;
    cbn [Analyzer.for_each_opt].
  - exists (fst st). now destruct st.
  - destruct (check_edges_acyclic g Hacyclic a (Analyzer.graph_get g a) st) as [checked E];
      [intros b Hb; exact Hb|].
    rewrite E.
    destruct (IH (checked, snd st)) as [checked' E']. rewrite E'. eauto.
Qed.

Lemma three_chain_acyclic : GraphSpec.acyclic three_chain.
Proof.
  assert (step : forall a b, GraphSpec.edge three_chain a b ->
                   (a = "A" /\ (b = "B" \/ b = "C")) \/ (a = "B" /\ b = "C")).
  { intros a b. unfold GraphSpec.edge, Analyzer.graph_get, three_chain.
    cbn [dict_get get_or].
    destruct (String.eqb_spec "A" a) as [<-|_].
    - intros [<-|[<-|[]]]; tauto.
    - destruct (String.eqb_spec "B" a) as [<-|_]; [|intros []].
      intros [<-|[]]; tauto. }
  assert (reach : forall a b, tc (GraphSpec.edge three_chain) a b ->
                    (a = "A" /\ (b = "B" \/ b = "C")) \/ (a = "B" /\ b = "C")).
  { induction 1 as [a b H|a b c H _ IH]; [now apply step|].
    apply step in H.
    destruct H as [[-> [->| ->]]|[-> ->]], IH as [[? ?]|[? ?]];
      try discriminate; tauto. }
  intros a H. apply reach in H.
  destruct H as [[-> [?|?]]|[-> ?]]; discriminate.
Qed.

(** C1, amended.  On the cycle through A, B and C the check reports one ERROR
    finding for each of the three pairs of modules joined by an edge, and on
    a graph without a cycle it reports nothing: the violations are left as
    they were. *)
Theorem cycle_check_findings :
  (option_map Analyzer.violations
     (Analyzer.check_circular_dependencies (analyzer_with_graph three_cycle))
   = Some [ Analyzer.circular_violation "A" "B";
            Analyzer.circular_violation "B" "C";
            Analyzer.circular_violation "C" "A" ]
   /\ Forall (fun v => Analyzer.severity v = "ERROR")
        [ Analyzer.circular_violation "A" "B";
          Analyzer.circular_violation "B" "C";
          Analyzer.circular_violation "C" "A" ])
  /\ (forall self : Analyzer.ArchitectureAnalyzer,
         GraphSpec.acyclic (Analyzer.dependency_graph self) ->
         option_map Analyzer.violations
           (Analyzer.check_circular_dependencies self)
         = Some (Analyzer.violations self)).
Proof.
  split; [split; [vm_compute; reflexivity | repeat constructor]|].
  intros self H. unfold Analyzer.check_circular_dependencies.
  destruct (check_modules_acyclic (Analyzer.dependency_graph self) H
              (map fst (Analyzer.dependency_graph self))
              (∅, Analyzer.violations self)) as [checked E].
  rewrite E. reflexivity.
Qed.

Lemma cycle_check_findings_witness :
  option_map Analyzer.violations
    (Analyzer.check_circular_dependencies (analyzer_with_graph three_chain))
  = Some [].
Proof.
  destruct cycle_check_findings as [_ H].
  exact (H (analyzer_with_graph three_chain) three_chain_acyclic).
Defined.

(** * Further properties of the analyzer *)

(** ** What [build_dependency_graph] puts into the graph *)

Lemma graph_get_add (g : Analyzer.graph) (k v a b : string) :
  In b (Analyzer.graph_get (Analyzer.graph_add g k v) a)
  <-> In b (Analyzer.graph_get g a) \/ (a = k /\ b = v).
Proof.
  unfold Analyzer.graph_get.
  induction g as [|[k0 vs] g' IH]; cbn [Analyzer.graph_add dict_get get_or].
  - destruct (String.eqb_spec k a) as [->|Hne]; cbn [get_or In];
      intuition congruence.
  - destruct (String.eqb_spec k0 k) as [->|Hk]; cbn [dict_get].
    + destruct (String.eqb_spec k a) as [->|Hne]; cbn [get_or].
      * destruct (existsb (String.eqb v) vs) eqn:E.
        -- apply existsb_exists in E. destruct E as [x [Hx Ex]].
           apply String.eqb_eq in Ex. subst x. intuition congruence.
        -- rewrite in_app_iff. cbn [In]. intuition congruence.
      * intuition congruence.
    + destruct (String.eqb_spec k0 a) as [->|Hne]; cbn [get_or].
      * intuition congruence.
      * exact IH.
Qed.

Lemma resolve_import_unfold (module_name import_name other_name : string)
    (other : Analyzer.PyModule) (g : Analyzer.graph) :
  Analyzer.resolve_import module_name import_name (other_name, other) g
  = if import_matches import_name other
    then Analyzer.graph_add g module_name other_name
    else g.
Proof. reflexivity. Qed.

Lemma resolve_candidates_edges (module_name import_name : string)
    (candidates : list (string * Analyzer.PyModule)) (g : Analyzer.graph)
    (a b : string) :
  In b (Analyzer.graph_get
          (fold_left (fun g candidate =>
                        Analyzer.resolve_import module_name import_name candidate g)
             candidates g) a)
  <-> In b (Analyzer.graph_get g a)
      \/ (a = module_name
          /\ exists other, In (b, other) candidates
                           /\ import_matches import_name other = true).
Proof.
  revert g. induction candidates as [|[other_name other] rest IH]; intros g;
    cbn [fold_left].
  - split; [tauto | intros [H|[_ [o [[] _]]]]; exact H].
  - rewrite IH, resolve_import_unfold.
    destruct (import_matches import_name other) eqn:E.
    + rewrite graph_get_add. split.
      * intros [[H|[-> ->]]|[-> [o [Hin Ho]]]]; [tauto| |].
        -- right. split; [reflexivity|]. exists other. split; [now left | exact E].
        -- right. split; [reflexivity|]. exists o. split; [now right | exact Ho].
      * intros [H|[-> [o [[Heq|Hin] Ho]]]]; [tauto| |].
        -- injection Heq as -> ->. tauto.
        -- right. split; [reflexivity|]. eauto.
    + split.
      * intros [H|[-> [o [Hin Ho]]]]; [tauto|].
        right. split; [reflexivity|]. exists o. split; [now right | exact Ho].
      * intros [H|[-> [o [[Heq|Hin] Ho]]]]; [tauto| |].
        -- injection Heq as -> ->. congruence.
        -- right. split; [reflexivity|]. eauto.
Qed.

Lemma resolve_imports_edges (module_name : string) (imported : list string)
    (candidates : list (string * Analyzer.PyModule)) (g : Analyzer.graph)
    (a b : string) :
  In b (Analyzer.graph_get
          (fold_left
             (fun g import_name =>
                fold_left (fun g candidate =>
                             Analyzer.resolve_import module_name import_name candidate g)
                  candidates g)
             imported g) a)
  <-> In b (Analyzer.graph_get g a)
      \/ (a = module_name
          /\ exists import_name other,
               In import_name imported /\ In (b, other) candidates
               /\ import_matches import_name other = true).
Proof.
  revert g. induction imported as [|i rest IH]; intros g; cbn [fold_left].
  - split; [tauto | intros [H|[_ [i [o [[] _]]]]]; exact H].
  - rewrite IH, resolve_candidates_edges. split.
    + intros [[H|[-> [o [Hin Ho]]]]|[-> [i' [o [Hi [Hin Ho]]]]]]; [tauto| |].
      * right. split; [reflexivity|]. exists i, o. split; [now left | tauto].
      * right. split; [reflexivity|]. exists i', o. split; [now right | tauto].
    + intros [H|[-> [i' [o [[<-|Hi] [Hin Ho]]]]]]; [tauto| |].
      * left. right. split; [reflexivity|]. eauto.
      * right. split; [reflexivity|]. exists i', o. tauto.
Qed.

Lemma resolve_modules_edges (mods candidates : list (string * Analyzer.PyModule))
    (g : Analyzer.graph) (a b : string) :
  In b (Analyzer.graph_get
          (fold_left
             (fun g '(module_name, module) =>
                fold_left
                  (fun g import_name =>
                     fold_left (fun g candidate =>
                                  Analyzer.resolve_import module_name import_name
                                    candidate g)
                       candidates g)
                  (Analyzer.imports module) g)
             mods g) a)
  <-> In b (Analyzer.graph_get g a)
      \/ exists module import_name other,
           In (a, module) mods /\ In import_name (Analyzer.imports module)
           /\ In (b, other) candidates
           /\ import_matches import_name other = true.
Proof.
  revert g. induction mods as [|[n m] rest IH]; intros g; cbn [fold_left].
  - split; [tauto | intros [H|[m [i [o [[] _]]]]]; exact H].
  - rewrite IH, resolve_imports_edges. split.
    + intros [[H|[-> [i [o H]]]]|[m' [i [o [Hm H]]]]]; [tauto| |].
      * right. exists m, i, o. split; [now left | tauto].
      * right. exists m', i, o. split; [now right | tauto].
    + intros [H|[m' [i [o [[Heq|Hm] H]]]]]; [tauto| |].
      * injection Heq as -> ->. left. right. split; [reflexivity|]. eauto.
      * right. exists m', i, o. tauto.
Qed.

(** X1. After [build_dependency_graph], [b] is in the set stored for [a]
    exactly when it was there before, or [a] is a module with an import that
    is contained in the dotted path of a module [b] of the corpus. *)
Theorem build_dependency_graph_edges (self : Analyzer.ArchitectureAnalyzer)
    (a b : string) :
  GraphSpec.edge
    (Analyzer.dependency_graph (Analyzer.build_dependency_graph self)) a b
  <-> GraphSpec.edge (Analyzer.dependency_graph self) a b
      \/ exists module import_name other,
           In (a, module) (Analyzer.modules self)
           /\ In import_name (Analyzer.imports module)
           /\ In (b, other) (Analyzer.modules self)
           /\ import_matches import_name other = true.
Proof.
  unfold GraphSpec.edge, Analyzer.build_dependency_graph.
  cbn [Analyzer.dependency_graph Analyzer.with_dependency_graph].
  apply resolve_modules_edges.
Qed.

(** ** Invariants of the graph under construction *)

Lemma build_graph_invariant (P : Analyzer.graph -> Prop) (names : list string) :
  (forall g k v, In k names -> In v names -> P g -> P (Analyzer.graph_add g k v)) ->
  forall (mods candidates : list (string * Analyzer.PyModule)) (g : Analyzer.graph),
    Forall (fun entry => In (fst entry) names) mods ->
    Forall (fun entry => In (fst entry) names) candidates ->
    P g ->
    P (fold_left
         (fun g '(module_name, module) =>
            fold_left
              (fun g import_name =>
                 fold_left (fun g candidate =>
                              Analyzer.resolve_import module_name import_name
                                candidate g)
                   candidates g)
              (Analyzer.imports module) g)
         mods g).
Proof.
  intros Hadd mods candidates g Hmods Hcands.
  assert (inner : forall n i g, In n names -> P g ->
            P (fold_left (fun g candidate =>
                            Analyzer.resolve_import n i candidate g)
                 candidates g)).
  { intros n i g0 Hn. revert g0.
    induction Hcands as [|[o om] cands Ho _ IHc]; intros g0 Hg;
      cbn [fold_left]; [exact Hg|].
    apply IHc. rewrite resolve_import_unfold.
    destruct (import_matches i om); [|exact Hg].
    apply Hadd; assumption. }
  revert g. induction Hmods as [|[n m] rest Hn _ IH]; intros g Hg;
    cbn [fold_left]; [exact Hg|].
  apply IH. cbn [fst] in Hn.
  generalize (Analyzer.imports m) as imported. intros imported.
  revert g Hg. induction imported as [|i imported IHi]; intros g Hg;
    cbn [fold_left]; [exact Hg|].
  apply IHi, inner; assumption.
Qed.

Lemma modules_named (mods : list (string * Analyzer.PyModule)) :
  Forall (fun entry => In (fst entry) (map fst mods)) mods.
Proof. apply List.Forall_forall. intros x Hx. now apply in_map. Qed.

Lemma graph_add_keys (g : Analyzer.graph) (k v a : string) :
  In a (map fst (Analyzer.graph_add g k v)) <-> In a (map fst g) \/ a = k.
Proof.
  induction g as [|[k0 vs] g' IH]; cbn [Analyzer.graph_add map fst In].
  - intuition congruence.
  - destruct (String.eqb_spec k0 k) as [->|Hne]; cbn [map fst In].
    + intuition congruence.
    + rewrite IH. tauto.
Qed.

Lemma graph_add_wf (g : Analyzer.graph) (k v : string) :
  graph_wf g -> graph_wf (Analyzer.graph_add g k v).
Proof.
  unfold graph_wf. intros [Hk Hs]. split.
  - clear Hs. induction g as [|[k0 vs] g' IH]; cbn [Analyzer.graph_add map fst].
    + apply NoDup_singleton.
    + destruct (String.eqb_spec k0 k) as [->|Hne]; cbn [map fst]; [exact Hk|].
      cbn [map fst] in Hk. apply NoDup_cons in Hk. destruct Hk as [Hnot Hrest].
      apply NoDup_cons. split; [|apply IH, Hrest].
      rewrite list_elem_of_In, graph_add_keys, <- list_elem_of_In.
      intros [H| ->]; [exact (Hnot H) | exact (Hne eq_refl)].
  - clear Hk. induction Hs as [|[k0 vs] g' [Hnd Hne] Hs IH];
      cbn [Analyzer.graph_add].
    + constructor; [|constructor]. cbn [snd].
      split; [apply NoDup_singleton | discriminate].
    + cbn [snd] in Hnd, Hne.
      destruct (String.eqb_spec k0 k) as [->|Hk0].
      * constructor; [|exact Hs]. cbn [snd].
        destruct (existsb (String.eqb v) vs) eqn:E; [split; assumption|].
        split; [|destruct vs; discriminate].
        apply NoDup_app. split; [exact Hnd|]. split; [|apply NoDup_singleton].
        intros x Hx Hv. apply list_elem_of_singleton in Hv. subst x.
        assert (existsb (String.eqb v) vs = true) as T; [|congruence].
        apply existsb_exists. exists v. split;
          [apply list_elem_of_In, Hx | apply String.eqb_refl].
      * constructor; [split; assumption | exact IH].
Qed.

Lemma graph_add_within (names : list string) (g : Analyzer.graph) (k v : string) :
  In k names -> In v names -> graph_within names g ->
  graph_within names (Analyzer.graph_add g k v).
Proof.
  unfold graph_within. intros Hk Hv Hg.
  induction Hg as [|[k0 vs] g' [H0 Hvs] Hg IH]; cbn [Analyzer.graph_add].
  - repeat constructor; assumption.
  - cbn [fst snd] in H0, Hvs.
    destruct (String.eqb_spec k0 k) as [->|Hne]; constructor; cbn [fst snd];
      try exact Hg; try exact IH; try (split; assumption).
    split; [exact H0|].
    destruct (existsb (String.eqb v) vs); [exact Hvs|].
    apply Forall_app. split; [exact Hvs | repeat constructor; exact Hv].
Qed.

(** X2. The graph that [build_dependency_graph] makes from an empty one has
    only module keys in it: every key and every element of every set is the
    key of a module of the corpus. *)
Theorem built_graph_has_module_keys_only (self : Analyzer.ArchitectureAnalyzer) :
  graph_within (map fst (Analyzer.modules self))
    (Analyzer.dependency_graph
       (Analyzer.build_dependency_graph (Analyzer.with_dependency_graph self []))).
Proof.
  unfold Analyzer.build_dependency_graph.
  cbn [Analyzer.dependency_graph Analyzer.with_dependency_graph Analyzer.modules].
  apply (build_graph_invariant (graph_within (map fst (Analyzer.modules self)))
           (map fst (Analyzer.modules self))).
  - intros g k v. apply graph_add_within.
  - apply modules_named.
  - apply modules_named.
  - constructor.
Qed.

(** X3. [build_dependency_graph] keeps the graph a dictionary of sets: when
    it starts from a graph without a repeated key, without a repeated element
    in a set and without an empty set, the graph it leaves is of that kind
    too; a dependency found through several imports is recorded once. *)
Theorem build_dependency_graph_keeps_sets (self : Analyzer.ArchitectureAnalyzer) :
  graph_wf (Analyzer.dependency_graph self) ->
  graph_wf (Analyzer.dependency_graph (Analyzer.build_dependency_graph self)).
Proof.
  intros H. unfold Analyzer.build_dependency_graph.
  cbn [Analyzer.dependency_graph Analyzer.with_dependency_graph].
  apply (build_graph_invariant graph_wf (map fst (Analyzer.modules self)));
    [ intros g k v _ _; apply graph_add_wf
    | apply modules_named | apply modules_named | exact H ].
Qed.

Lemma build_dependency_graph_keeps_sets_witness :
  graph_wf
    (Analyzer.dependency_graph
       (Analyzer.build_dependency_graph (analyzer_of no_rules os_corpus))).
Proof.
  apply (build_dependency_graph_keeps_sets (analyzer_of no_rules os_corpus)).
  split; constructor.
Defined.

(** ** [has_path] decides reachability *)

Lemma any_neighbor_found (probe : string -> option bool) (ns : list string) :
  (forall n, In n ns -> is_Some (probe n)) ->
  (exists n, In n ns /\ probe n = Some true) ->
  Analyzer.any_neighbor probe ns = Some true.
Proof.
  induction ns as [|n ns IH]; intros Htot [x [Hin Hx]]; [destruct Hin|].
  cbn [Analyzer.any_neighbor].
  destruct (Htot n (or_introl eq_refl)) as [[|] E]; rewrite E; [reflexivity|].
  apply IH.
  - intros n' Hn'. apply Htot. now right.
  - destruct Hin as [->|Hin]; [congruence | eauto].
Qed.

(** A path that avoids [visited] either avoids [s] as well or, from the last
    time it leaves [s], goes on avoiding it. *)
Lemma path_detour (g : Analyzer.graph) (visited : gset string) (s x e : string) :
  rtc (edge_outside g visited) x e ->
  rtc (edge_outside g (visited ∪ {[s]})) x e
  \/ ((s ∉ visited)
      /\ exists y, GraphSpec.edge g s y
                   /\ rtc (edge_outside g (visited ∪ {[s]})) y e).
Proof.
  induction 1 as [x|x y e [Hedge Hout] _ IH]; [left; apply rtc_refl|].
  destruct IH as [IH|IH]; [|right; exact IH].
  destruct (decide (x = s)) as [->|Hne].
  - right. split; [exact Hout|]. exists y. split; assumption.
  - left. apply rtc_l with y; [|exact IH]. split; [exact Hedge|].
    rewrite elem_of_union, elem_of_singleton. tauto.
Qed.

Lemma size_after_visit (g : Analyzer.graph) (visited : gset string)
    (s b : string) (fuel : nat) :
  In b (Analyzer.graph_get g s) -> s ∉ visited ->
  (size (GraphSpec.keys g ∖ visited) < S fuel)%nat ->
  (size (GraphSpec.keys g ∖ (visited ∪ {[s]})) < fuel)%nat.
Proof.
  intros Hb Hs Hsize. apply graph_get_key in Hb.
  assert (GraphSpec.keys g ∖ (visited ∪ {[s]}) ⊂ GraphSpec.keys g ∖ visited)
    as Hsub.
  { split.
    - intros x. rewrite !elem_of_difference, elem_of_union. tauto.
    - intros Hall. specialize (Hall s).
      rewrite !elem_of_difference, elem_of_union, elem_of_singleton in Hall.
      tauto. }
  apply subset_size in Hsub. lia.
Qed.

Lemma has_path_complete (g : Analyzer.graph) (fuel : nat) (start end_ : string)
    (visited : gset string) :
  (size (GraphSpec.keys g ∖ visited) < fuel)%nat ->
  rtc (edge_outside g visited) start end_ ->
  Analyzer.has_path fuel g start end_ visited = Some true.
Proof.
  revert start visited.
  induction fuel as [|fuel IH]; intros start visited Hsize Hpath; [lia|].
  cbn [Analyzer.has_path].
  destruct (decide (start = end_)) as [|Hne]; [reflexivity|].
  destruct (path_detour g visited start start end_ Hpath) as [Hrest|[Hout [y [Hy Hrest]]]].
  - exfalso. inversion Hrest as [|? ? ? [_ Hnot]]; subst; [congruence|].
    apply Hnot. rewrite elem_of_union, elem_of_singleton. tauto.
  - destruct (decide (start ∈ visited)) as [|_]; [contradiction|].
    apply any_neighbor_found.
    + intros n Hn. apply has_path_total.
      eapply size_after_visit; eassumption.
    + exists y. split; [exact Hy|]. apply IH; [|exact Hrest].
      eapply size_after_visit; eassumption.
Qed.

Lemma edge_outside_empty (g : Analyzer.graph) (a b : string) :
  rtc (GraphSpec.edge g) a b -> rtc (edge_outside g ∅) a b.
Proof.
  induction 1 as [|a c b Hedge _ IH]; [apply rtc_refl|].
  apply rtc_l with c; [|exact IH]. split; [exact Hedge|].
  apply not_elem_of_empty.
Qed.

Lemma has_path_probe_complete (g : Analyzer.graph) (start end_ : string) :
  rtc (GraphSpec.edge g) start end_ ->
  Analyzer.has_path (S (List.length g)) g start end_ ∅ = Some true.
Proof.
  intros H. apply has_path_complete; [|apply edge_outside_empty, H].
  assert (size (GraphSpec.keys g ∖ ∅) <= size (GraphSpec.keys g))%nat
    by (apply subseteq_size; intros x; rewrite elem_of_difference; tauto).
  pose proof (size_keys g). lia.
Qed.

(** X4. The probe that the cycle check makes, [has_path(start, end, set())],
    answers True exactly when [end] can be reached from [start] along edges
    of the graph (in zero or more steps), and False exactly when it cannot. *)
Theorem has_path_decides_reachability (g : Analyzer.graph) (start end_ : string) :
  (Analyzer.has_path (S (List.length g)) g start end_ ∅ = Some true
   <-> rtc (GraphSpec.edge g) start end_)
  /\ (Analyzer.has_path (S (List.length g)) g start end_ ∅ = Some false
      <-> ~ rtc (GraphSpec.edge g) start end_).
Proof.
  assert (yes : Analyzer.has_path (S (List.length g)) g start end_ ∅ = Some true
                <-> rtc (GraphSpec.edge g) start end_)
    by (split; [apply has_path_sound | apply has_path_probe_complete]).
  split; [exact yes|].
  destruct (has_path_answers g start end_) as [[|] E]; rewrite E.
  - split; [discriminate|]. intros H. destruct H. apply yes, E.
  - split; [|reflexivity]. intros _ H. apply yes in H. congruence.
Qed.

(** ** What the cycle check reports *)

Lemma sorted_pair_same (a b c d : string) :
  Analyzer.sorted_pair a b = Analyzer.sorted_pair c d ->
  (a = c /\ b = d) \/ (a = d /\ b = c).
Proof.
  unfold Analyzer.sorted_pair.
  destruct (String.leb a b), (String.leb c d); intros H; injection H; tauto.
Qed.

Lemma edge_source_is_key (g : Analyzer.graph) (a b : string) :
  GraphSpec.edge g a b -> In a (map fst g).
Proof.
  unfold GraphSpec.edge, Analyzer.graph_get.
  induction g as [|[k vs] g' IH]; cbn [dict_get get_or map fst In]; [intros []|].
  destruct (String.eqb_spec k a) as [->|_]; [now left|].
  intros H. right. apply IH, H.
Qed.

Lemma check_edge_inv (g : Analyzer.graph)
    (before : list Analyzer.ArchitectureViolation) (a b : string)
    (st : Analyzer.cycle_state) :
  GraphSpec.edge g a b -> cycle_inv g before st ->
  exists st', Analyzer.check_edge g a b st = Some st'
              /\ cycle_inv g before st'
              /\ fst st ⊆ fst st'
              /\ Analyzer.sorted_pair a b ∈ fst st'.
Proof.
  intros Hedge (pairs & Hvs & Hcyc & Hchk & Hnd & Hall).
  destruct st as [checked vs]. cbn [fst snd] in *.
  cbn [Analyzer.check_edge].
  destruct (decide (Analyzer.sorted_pair a b ∈ checked)) as [Hin|Hnew].
  { exists (checked, vs). split; [reflexivity|]. split; [|split; [reflexivity|exact Hin]].
    exists pairs. cbn [fst snd]. tauto. }
  assert (Hyes : Analyzer.has_path (S (List.length g)) g b a ∅ = Some true ->
                 rtc (GraphSpec.edge g) b a) by apply has_path_sound.
  assert (Hno : Analyzer.has_path (S (List.length g)) g b a ∅ = Some false ->
                ~ rtc (GraphSpec.edge g) b a).
  { intros Hf Hr. apply has_path_probe_complete in Hr. congruence. }
  destruct (has_path_answers g b a) as [[|] E]; rewrite E.
  - eexists. split; [reflexivity|]. cbn [fst snd].
    split; [|split; [apply union_subseteq_l|];
             apply elem_of_union_r, elem_of_singleton; reflexivity].
    exists (pairs ++ [(a, b)])%list. cbn [fst snd].
    split; [subst vs; now rewrite map_app, app_assoc|].
    split; [apply Forall_app; split; [exact Hcyc|];
            repeat constructor; [exact Hedge | apply Hyes, E]|].
    split.
    { apply Forall_app. split.
      - eapply Forall_impl; [exact Hchk|]. intros p Hp. now apply elem_of_union_l.
      - repeat constructor. apply elem_of_union_r, elem_of_singleton. reflexivity. }
    split.
    { rewrite map_app. apply NoDup_app. split; [exact Hnd|].
      split; [|apply NoDup_singleton].
      intros x Hx Hx'. apply list_elem_of_singleton in Hx'. subst x.
      apply Hnew. apply list_elem_of_In, in_map_iff in Hx.
      destruct Hx as [p [Hp Hin]]. unfold unordered in Hp. cbn [fst snd] in Hp.
      rewrite <- Hp. rewrite List.Forall_forall in Hchk. apply Hchk, Hin. }
    intros p Hp Hon. rewrite map_app, in_app_iff.
    apply elem_of_union in Hp. destruct Hp as [Hp|Hp]; [left; now apply Hall|].
    right. apply elem_of_singleton in Hp. left. symmetry. exact Hp.
  - eexists. split; [reflexivity|]. cbn [fst snd].
    split; [|split; [apply union_subseteq_l|];
             apply elem_of_union_r, elem_of_singleton; reflexivity].
    exists pairs. cbn [fst snd]. split; [exact Hvs|]. split; [exact Hcyc|].
    split; [eapply Forall_impl; [exact Hchk|];
            intros p Hp; now apply elem_of_union_l|].
    split; [exact Hnd|].
    intros p Hp [Hpe Hpr]. apply elem_of_union in Hp.
    destruct Hp as [Hp|Hp]; [apply Hall; [exact Hp | split; assumption]|].
    exfalso. apply elem_of_singleton in Hp. apply sorted_pair_same in Hp.
    assert (Hnot : ~ rtc (GraphSpec.edge g) b a) by (apply Hno, E).
    destruct Hp as [[Ha Hb]|[Ha Hb]]; rewrite Ha, Hb in *.
    + exact (Hnot Hpr).
    + apply Hnot, rtc_once, Hpe.
Qed.

Lemma check_edges_inv (g : Analyzer.graph)
    (before : list Analyzer.ArchitectureViolation) (a : string)
    (bs : list string) (st : Analyzer.cycle_state) :
  (forall b, In b bs -> GraphSpec.edge g a b) -> cycle_inv g before st ->
  exists st', Analyzer.for_each_opt bs (Analyzer.check_edge g a) st = Some st'
              /\ cycle_inv g before st'
              /\ fst st ⊆ fst st'
              /\ forall b, In b bs -> Analyzer.sorted_pair a b ∈ fst st'.
Proof.
  revert st. induction bs as [|b bs IH]; intros st Hbs Hinv;
    cbn [Analyzer.for_each_opt].
  - exists st. split; [reflexivity|]. split; [exact Hinv|].
    split; [reflexivity | intros b []].
  - destruct (check_edge_inv g before a b st) as (st1 & E1 & I1 & S1 & P1);
      [apply Hbs; now left | exact Hinv|].
    rewrite E1.
    destruct (IH st1) as (st2 & E2 & I2 & S2 & P2);
      [intros b' Hb'; apply Hbs; now right | exact I1|].
    exists st2. split; [exact E2|]. split; [exact I2|].
    split; [etransitivity; eassumption|].
    intros b' [<-|Hb']; [apply S2, P1 | apply P2, Hb'].
Qed.

Lemma check_modules_inv (g : Analyzer.graph)
    (before : list Analyzer.ArchitectureViolation)
    (ks : list string) (st : Analyzer.cycle_state) :
  cycle_inv g before st ->
  exists st',
    Analyzer.for_each_opt ks
      (fun module_a =>
         Analyzer.for_each_opt (Analyzer.graph_get g module_a)
           (Analyzer.check_edge g module_a)) st = Some st'
    /\ cycle_inv g before st'
    /\ fst st ⊆ fst st'
    /\ forall a b, In a ks -> GraphSpec.edge g a b ->
                   Analyzer.sorted_pair a b ∈ fst st'.
Proof.
  revert st. induction ks as [|a ks IH]; intros st Hinv;
    cbn [Analyzer.for_each_opt].
  - exists st. split; [reflexivity|]. split; [exact Hinv|].
    split; [reflexivity | intros a b []].
  - destruct (check_edges_inv g before a (Analyzer.graph_get g a) st)
      as (st1 & E1 & I1 & S1 & P1); [intros b Hb; exact Hb | exact Hinv|].
    rewrite E1.
    destruct (IH st1 I1) as (st2 & E2 & I2 & S2 & P2).
    exists st2. split; [exact E2|]. split; [exact I2|].
    split; [etransitivity; eassumption|].
    intros a' b [<-|Ha'] Hedge; [apply S2, P1, Hedge | now apply P2].
Qed.

Lemma cycle_check_outcome (self : Analyzer.ArchitectureAnalyzer) :
  exists pairs,
    option_map Analyzer.violations (Analyzer.check_circular_dependencies self)
    = Some (Analyzer.violations self ++ map violation_of_pair pairs)%list
    /\ Forall (on_cycle (Analyzer.dependency_graph self)) pairs
    /\ NoDup (map unordered pairs)
    /\ forall pair, on_cycle (Analyzer.dependency_graph self) pair ->
                    In (unordered pair) (map unordered pairs).
Proof.
  unfold Analyzer.check_circular_dependencies.
  set (g := Analyzer.dependency_graph self).
  destruct (check_modules_inv g (Analyzer.violations self) (map fst g)
              (∅, Analyzer.violations self))
    as ([checked vs] & E & (pairs & Hvs & Hcyc & Hchk & Hnd & Hall) & _ & Hdone).
  { exists []. cbn [fst snd map]. rewrite app_nil_r.
    split; [reflexivity|]. split; [constructor|]. split; [constructor|].
    split; [constructor|]. intros p Hp. now apply not_elem_of_empty in Hp. }
  rewrite E. cbn [fst snd] in *. exists pairs.
  split; [cbn; now rewrite Hvs|]. split; [exact Hcyc|]. split; [exact Hnd|].
  intros p Hon. apply Hall; [|exact Hon].
  destruct Hon as [Hedge _]. apply Hdone; [|exact Hedge].
  eapply edge_source_is_key, Hedge.
Qed.

(** X5. The cycle check always ends, keeps the violations it found in
    place, and adds one violation [a ↔ b] for each pair of a list of pairs:
    every pair is an edge from [a] to [b] with a path from [b] back to [a];
    no two pairs consist of the same two modules; and an edge of the graph
    lies on a cycle exactly when its two modules make up one of the pairs. *)
Theorem cycle_check_reports_cycle_edges_once (self : Analyzer.ArchitectureAnalyzer) :
  exists pairs,
    option_map Analyzer.violations (Analyzer.check_circular_dependencies self)
    = Some (Analyzer.violations self ++ map violation_of_pair pairs)%list
    /\ Forall (on_cycle (Analyzer.dependency_graph self)) pairs
    /\ NoDup (map unordered pairs)
    /\ forall pair,
         on_cycle (Analyzer.dependency_graph self) pair
         <-> GraphSpec.edge (Analyzer.dependency_graph self) (fst pair) (snd pair)
             /\ In (unordered pair) (map unordered pairs).
Proof.
  destruct (cycle_check_outcome self) as (pairs & E & Hcyc & Hnd & Hall).
  exists pairs. split; [exact E|]. split; [exact Hcyc|]. split; [exact Hnd|].
  intros p. split.
  - intros Hon. split; [apply Hon | apply Hall, Hon].
  - intros [Hedge Hin]. apply in_map_iff in Hin. destruct Hin as [q [Hq Hin]].
    rewrite List.Forall_forall in Hcyc. destruct (Hcyc q Hin) as [Hqe Hqr].
    apply sorted_pair_same in Hq. split; [exact Hedge|].
    destruct Hq as [[Ha Hb]|[Ha Hb]].
    + now rewrite <- Ha, <- Hb.
    + rewrite Ha, Hb in Hqe. apply rtc_once, Hqe.
Qed.

(** X6. The cycle check adds no violation exactly when the dependency graph
    has no cycle, a module that depends on itself counting as one. *)
Theorem cycle_check_silent_iff_acyclic (self : Analyzer.ArchitectureAnalyzer) :
  option_map Analyzer.violations (Analyzer.check_circular_dependencies self)
  = Some (Analyzer.violations self)
  <-> GraphSpec.acyclic (Analyzer.dependency_graph self).
Proof.
  destruct (cycle_check_outcome self) as (pairs & E & Hcyc & _ & Hall).
  rewrite E. split.
  - intros H. injection H as H.
    rewrite <- (app_nil_r (Analyzer.violations self)) in H at 2.
    apply app_inv_head in H. destruct pairs; [|discriminate].
    intros a Hloop.
    assert (exists b, on_cycle (Analyzer.dependency_graph self) (a, b)) as [b Hon].
    { inversion Hloop as [? ? Hedge|? b ? Hedge Hrest]; subst.
      - exists a. split; [exact Hedge | apply rtc_refl].
      - exists b. split; [exact Hedge | apply tc_rtc, Hrest]. }
    destruct (Hall _ Hon).
  - intros Hacyclic. destruct pairs as [|p pairs].
    + cbn [map]. now rewrite app_nil_r.
    + exfalso. inversion Hcyc as [|? ? [Hedge Hback]]; subst.
      apply (Hacyclic (fst p)).
      eapply tc_rtc_r; [apply tc_once, Hedge | exact Hback].
Qed.

(** ** Layers *)

Lemma for_each_append {A B} (f : A -> list B)
    (body : A -> list B -> result (list B)) (xs : list A) (acc : list B) :
  (forall x acc, In x xs -> body x acc = Ok (acc ++ f x)%list) ->
  for_each xs body acc = Ok (acc ++ flat_map f xs)%list.
Proof.
  revert acc. induction xs as [|x xs IH]; intros acc H; cbn [for_each flat_map].
  - now rewrite app_nil_r.
  - rewrite H by now left. cbn. rewrite IH by (intros; apply H; now right).
    now rewrite app_assoc.
Qed.

Lemma for_each_unchanged {A S} (body : A -> S -> result S) (xs : list A) (s : S) :
  (forall x s, In x xs -> body x s = Ok s) -> for_each xs body s = Ok s.
Proof.
  induction xs as [|x xs IH]; intros H; cbn [for_each]; [reflexivity|].
  rewrite H by now left. cbn. apply IH. intros; apply H; now right.
Qed.

(** X7. For a regex engine that raises on none of the patterns,
    [determine_layer] returns the name of the first layer, in the order of
    the rules, that has a directory pattern matching the path, and [None]
    when there is no such layer. *)
Theorem determine_layer_is_first_match (matches : string -> string -> bool)
    (rules : Analyzer.Rules) (rel_path : string) :
  Analyzer.determine_layer (fun regex s => Some (matches regex s)) rules rel_path
  = Ok (option_map fst
          (List.find
             (fun entry =>
                existsb (fun dir_pattern => matches (directory_regex dir_pattern) rel_path)
                  (get_or (Analyzer.directories (snd entry)) []))
             (get_or (Analyzer.layers rules) []))).
Proof.
  unfold Analyzer.determine_layer.
  induction (get_or (Analyzer.layers rules) []) as [|[layer_name info] rest IH];
    [reflexivity|].
  cbn [Analyzer.determine_layer_in List.find snd].
  assert (D : forall dirs,
             Analyzer.directories_match (fun regex s => Some (matches regex s))
               dirs rel_path
             = Ok (existsb (fun d => matches (directory_regex d) rel_path) dirs)).
  { induction dirs as [|d dirs IHd]; [reflexivity|].
    cbn [Analyzer.directories_match existsb]. fold (directory_regex d).
    destruct (matches (directory_regex d) rel_path); [reflexivity | exact IHd]. }
  rewrite D. cbn.
  destruct (existsb _ (get_or (Analyzer.directories info) [])); [reflexivity|].
  exact IH.
Qed.

Lemma directories_match_first (re_match : string -> string -> option bool)
    (earlier later : list string) (dir_pattern rel_path : string) :
  Forall (fun d => re_match (directory_regex d) rel_path = Some false) earlier ->
  re_match (directory_regex dir_pattern) rel_path = Some true ->
  Analyzer.directories_match re_match (earlier ++ dir_pattern :: later)%list rel_path
  = Ok true.
Proof.
  intros He Hd. induction He as [|d ds H _ IH];
    cbn [app Analyzer.directories_match].
  - fold (directory_regex dir_pattern). now rewrite Hd.
  - fold (directory_regex d). now rewrite H.
Qed.

(** X10. [determine_layer] stops at the first directory pattern that matches:
    when the patterns of the layers before did not match and, in a layer, the
    patterns before one that matches did not match, that layer is returned
    whatever follows; the later patterns of the layer and the later layers
    are not evaluated, not even ones that do not compile. *)
Theorem determine_layer_stops_at_first_match
    (re_match : string -> string -> option bool)
    (before after : list (string * Analyzer.LayerInfo))
    (layer_name : string) (info : Analyzer.LayerInfo)
    (earlier later : list string) (dir_pattern rel_path : string) :
  Forall (fun entry =>
            Forall (fun d => re_match (directory_regex d) rel_path = Some false)
              (get_or (Analyzer.directories (snd entry)) []))
    before ->
  Analyzer.directories info = Some (earlier ++ dir_pattern :: later)%list ->
  Forall (fun d => re_match (directory_regex d) rel_path = Some false) earlier ->
  re_match (directory_regex dir_pattern) rel_path = Some true ->
  Analyzer.determine_layer_in re_match (before ++ (layer_name, info) :: after)%list
    rel_path = Ok (Some layer_name).
Proof.
  intros Hb Hi He Hd. apply determine_layer_first_match.
  - eapply Forall_impl; [exact Hb|]. intros [n i] H. cbn [snd] in *.
    induction H as [|d ds Hd' _ IH]; [reflexivity|].
    cbn [Analyzer.directories_match]. fold (directory_regex d). now rewrite Hd'.
  - rewrite Hi. cbn [get_or]. now apply directories_match_first.
Qed.

Lemma determine_layer_stops_at_first_match_witness :
  Analyzer.determine_layer_in Re.re_match
    ([ ("infra", {| Analyzer.directories := Some ["lib/*"];
                    Analyzer.forbidden_imports := None |}) ]
     ++ ("domain", {| Analyzer.directories := Some (["app/*"] ++ "src/*" :: ["("]);
                      Analyzer.forbidden_imports := None |})
     :: [ ("broken", {| Analyzer.directories := Some ["("];
                        Analyzer.forbidden_imports := None |}) ])%list
    "src/a.py" = Ok (Some "domain").
Proof.
  apply (determine_layer_stops_at_first_match Re.re_match _ _ _ _
           ["app/*"] ["("] "src/*").
  - repeat constructor.
  - reflexivity.
  - repeat constructor.
  - reflexivity.
Defined.

Lemma check_forbidden_total (matches : string -> string -> bool)
    (module_name layer_name import_name forbidden_pattern : string)
    (vs : list Analyzer.ArchitectureViolation) :
  Analyzer.check_forbidden (fun regex s => Some (matches regex s))
    module_name layer_name import_name forbidden_pattern vs
  = Ok (vs ++ if matches (forbidden_regex forbidden_pattern) import_name
              then [Analyzer.layer_violation module_name layer_name import_name]
              else [])%list.
Proof.
  unfold Analyzer.check_forbidden. fold (forbidden_regex forbidden_pattern).
  destruct (matches _ import_name); [reflexivity | now rewrite app_nil_r].
Qed.

Lemma flat_map_inner_nil {A B C} (f : A -> C -> list B) (xs : list A) :
  flat_map (fun a => flat_map (f a) []) xs = [].
Proof. induction xs; [reflexivity | exact IHxs]. Qed.

Lemma check_module_layer_total (matches : string -> string -> bool)
    (rules : Analyzer.Rules) (entry : string * Analyzer.PyModule)
    (vs : list Analyzer.ArchitectureViolation) :
  Analyzer.check_module_layer (fun regex s => Some (matches regex s))
    (get_or (Analyzer.layers rules) []) entry vs
  = Ok (vs ++ layer_violations_of matches rules entry)%list.
Proof.
  destruct entry as [module_name module].
  unfold Analyzer.check_module_layer, layer_violations_of, forbidden_for.
  cbn [fst snd].
  destruct (Analyzer.layer module) as [[|c layer_name]|].
  - now rewrite flat_map_inner_nil, app_nil_r.
  - cbn [get_or]. apply for_each_append. intros import_name acc _.
    apply for_each_append. intros pat acc' _. apply check_forbidden_total.
  - now rewrite flat_map_inner_nil, app_nil_r.
Qed.

(** X8. For a regex engine that raises on none of the patterns,
    [check_layer_violations] keeps the violations found before and adds, module
    by module and import by import, one ERROR violation for every forbidden
    pattern of the module's layer that matches the import: an import listed
    twice, or matched by two patterns, is reported twice, and a module without
    a layer is not reported at all. *)
Theorem layer_violations_are_matching_pairs (matches : string -> string -> bool)
    (self : Analyzer.ArchitectureAnalyzer) :
  Analyzer.check_layer_violations (fun regex s => Some (matches regex s)) self
  = Ok (Analyzer.with_violations self
          (Analyzer.violations self
           ++ flat_map (layer_violations_of matches (Analyzer.rules self))
                (Analyzer.modules self))%list).
Proof.
  unfold Analyzer.check_layer_violations.
  rewrite (for_each_append (layer_violations_of matches (Analyzer.rules self)));
    [reflexivity|].
  intros entry acc _. apply check_module_layer_total.
Qed.

(** X9. When no forbidden-import pattern applies to any module (the rules
    declare no layers, or no module has a declared layer with forbidden
    imports), [check_layer_violations] evaluates no regex: it cannot raise, and
    it leaves the violations as they were. *)
Theorem no_forbidden_patterns_no_layer_violations
    (re_match : string -> string -> option bool)
    (self : Analyzer.ArchitectureAnalyzer) :
  Forall (fun entry => forbidden_for (Analyzer.rules self) (snd entry) = [])
    (Analyzer.modules self) ->
  Analyzer.check_layer_violations re_match self
  = Ok (Analyzer.with_violations self (Analyzer.violations self)).
Proof.
  intros H. unfold Analyzer.check_layer_violations.
  rewrite for_each_unchanged; [reflexivity|].
  intros [module_name module] vs Hin.
  rewrite List.Forall_forall in H. specialize (H _ Hin).
  unfold forbidden_for in H. cbn [snd] in H.
  unfold Analyzer.check_module_layer.
  destruct (Analyzer.layer module) as [[|c layer_name]|]; try reflexivity.
  rewrite H. apply for_each_unchanged. reflexivity.
Qed.

Lemma no_forbidden_patterns_no_layer_violations_witness :
  Analyzer.check_layer_violations Re.re_match
    (analyzer_of no_rules [module_importing "core.py" "domain" ["infra.db"]])
  = Ok (Analyzer.with_violations
          (analyzer_of no_rules [module_importing "core.py" "domain" ["infra.db"]])
          []).
Proof.
  apply (no_forbidden_patterns_no_layer_violations Re.re_match
           (analyzer_of no_rules [module_importing "core.py" "domain" ["infra.db"]])).
  repeat constructor.
Defined.

(** ** Complexity *)


(** ** Duplicate logic *)

Lemma check_pattern_no_match (re_search : string -> string -> option bool)
    (fs : Analyzer.file_system) (threshold : Z)
    (mods : list (string * Analyzer.PyModule)) (info : Analyzer.PatternInfo) :
  Forall (fun entry =>
            Analyzer.module_matches re_search fs (Analyzer.regex info) (snd entry)
            = false) mods ->
  Analyzer.check_pattern re_search fs threshold mods info = [].
Proof.
  intros H. unfold Analyzer.check_pattern.
  assert (E : List.filter
                (fun entry =>
                   Analyzer.module_matches re_search fs (Analyzer.regex info) (snd entry))
                mods = []).
  { induction H as [|x xs Hx _ IH]; [reflexivity|]. cbn [List.filter]. now rewrite Hx. }
  rewrite E. cbn [map List.length]. now destruct (_ >=? threshold).
Qed.

(** X12. In [check_duplicate_logic], a pattern whose regex does not compile
    is passed over: the exception is swallowed for every module, no violation
    is added for it whatever the threshold, and the violations are those of
    the same rules without that pattern. *)
Theorem duplicate_logic_skips_bad_regex
    (re_search : string -> string -> option bool) (fs : Analyzer.file_system)
    (threshold : option Z) (before after : list Analyzer.PatternInfo)
    (name regex : string) (mods : list (string * Analyzer.PyModule))
    (vs : list Analyzer.ArchitectureViolation) (g : Analyzer.graph) :
  (forall content, re_search regex content = None) ->
  Analyzer.violations
    (Analyzer.check_duplicate_logic re_search fs
       (analyzer_with
          (duplicate_rules threshold (before ++ pattern_info name regex :: after))
          mods vs g))
  = Analyzer.violations
      (Analyzer.check_duplicate_logic re_search fs
         (analyzer_with (duplicate_rules threshold (before ++ after)) mods vs g)).
Proof.
  intros Hbad. unfold Analyzer.check_duplicate_logic.
  cbn [Analyzer.violations Analyzer.with_violations Analyzer.rules Analyzer.modules
       analyzer_with duplicate_rules Analyzer.abstraction_indicators
       Analyzer.duplicate_logic Analyzer.patterns Analyzer.threshold get_or].
  rewrite !fold_left_app. cbn [fold_left].
  rewrite check_pattern_no_match; [now rewrite app_nil_r|].
  apply List.Forall_forall. intros entry _.
  apply duplicate_logic_swallows_bad_regex, Hbad.
Qed.

Lemma duplicate_logic_skips_bad_regex_witness :
  Analyzer.violations
    (Analyzer.check_duplicate_logic Re.re_search [("proj/main.py", "x = retry()")]
       (analyzer_with
          (duplicate_rules (Some 1)
             ([] ++ pattern_info "broken" "(" :: [pattern_info "retry" "retry"]))
          os_corpus [] []))
  = Analyzer.violations
      (Analyzer.check_duplicate_logic Re.re_search [("proj/main.py", "x = retry()")]
         (analyzer_with
            (duplicate_rules (Some 1) ([] ++ [pattern_info "retry" "retry"]))
            os_corpus [] [])).
Proof.
  apply (duplicate_logic_skips_bad_regex Re.re_search _ (Some 1) []
           [pattern_info "retry" "retry"] "broken" "(" os_corpus [] []).
  reflexivity.
Defined.

(** X13. For one duplicate-logic pattern, either nothing is reported or at
    least [threshold] modules are: every violation is of severity INFO, names
    a module of the corpus, and cites the number of violations reported for
    the pattern. *)
Theorem duplicate_pattern_reports_threshold_or_nothing
    (re_search : string -> string -> option bool) (fs : Analyzer.file_system)
    (threshold : Z) (mods : list (string * Analyzer.PyModule))
    (info : Analyzer.PatternInfo) :
  let reported := Analyzer.check_pattern re_search fs threshold mods info in
  (reported = [] \/ threshold <= Z.of_nat (List.length reported))
  /\ Forall (fun v =>
               Analyzer.severity v = "INFO"
               /\ In (Analyzer.file_path v) (map fst mods)
               /\ v = Analyzer.duplicate_violation info (List.length reported)
                        (Analyzer.file_path v))
       reported.
Proof.
  cbv zeta. unfold Analyzer.check_pattern.
  set (matches := map fst (List.filter _ mods)).
  assert (Hsub : forall x, In x matches -> In x (map fst mods)).
  { intros x Hx. apply in_map_iff in Hx. destruct Hx as [e [<- He]].
    apply filter_In in He. apply in_map, He. }
  destruct (Z.geb_spec (Z.of_nat (List.length matches)) threshold) as [Hge|Hlt].
  - rewrite length_map. split; [right; lia|].
    apply List.Forall_forall. intros v Hv. apply in_map_iff in Hv.
    destruct Hv as [x [<- Hx]]. cbn [Analyzer.severity Analyzer.file_path].
    split; [reflexivity|]. split; [apply Hsub, Hx | reflexivity].
  - split; [now left | constructor].
Qed.

(** * Further properties of the validator *)

Lemma for_each_related {A S} (R : S -> S -> Prop)
    (body : A -> S -> result S) (xs : list A) :
  (forall s, R s s) -> (forall s1 s2 s3, R s1 s2 -> R s2 s3 -> R s1 s3) ->
  (forall x s s', In x xs -> body x s = Ok s' -> R s s') ->
  forall s s', for_each xs body s = Ok s' -> R s s'.
Proof.
  intros Hrefl Htrans. induction xs as [|x xs IH]; intros Hbody s s';
    cbn [for_each].
  - intros H. injection H as <-. apply Hrefl.
  - destruct (body x s) as [s1|e] eqn:E; cbn; [|discriminate].
    intros H. apply Htrans with s1.
    + apply (Hbody x); [now left | exact E].
    + apply IH; [|exact H]. intros y t t' Hy. apply Hbody. now right.
Qed.

Lemma extends_refl (self : Validator.CodeValidator) : extends self self.
Proof. split; [reflexivity|]. exists []. now rewrite app_nil_r. Qed.

Lemma extends_trans (s1 s2 s3 : Validator.CodeValidator) :
  extends s1 s2 -> extends s2 s3 -> extends s1 s3.
Proof.
  intros [R1 [a1 F1]] [R2 [a2 F2]]. split; [congruence|].
  exists (a1 ++ a2)%list. now rewrite F2, F1, app_assoc.
Qed.

Section ValidatorRuns.

Variable re_search : string -> string -> option bool.

Lemma scan_line_appends (file_path check_name line : string)
  (lines : list string) (check_config : Validator.CheckConfig)
  (pf : Validator.pattern_fields) (st st' : Z * list Validator.Finding) :
Validator.scan_line re_search file_path lines check_name check_config pf line st
= Ok st' ->
exists added, snd st' = (snd st ++ added)%list
              /\ (String.prefix "/" file_path = true -> added = []).
Proof.
destruct st as [n fs]. unfold Validator.scan_line.
destruct (Validator.pf_pattern pf) as [regex|]; [|discriminate].
destruct (re_search regex line) as [[|]|]; [| |discriminate].
- destruct (Validator.is_allowed_context _ _ _ _ _).
  + intros H. injection H as <-. exists []. now rewrite app_nil_r.
  + unfold Validator.finding_path.
    destruct (String.prefix "/" file_path); cbn; [discriminate|].
    intros H. injection H as <-. eexists. split; [reflexivity | discriminate].
- intros H. injection H as <-. exists []. now rewrite app_nil_r.
Qed.

Lemma scan_pattern_appends (file_path check_name : string)
  (lines : list string) (check_config : Validator.CheckConfig)
  (severity : Validator.Severity) (pattern_config : Validator.PatternConfig)
  (fs fs' : list Validator.Finding) :
Validator.scan_pattern re_search file_path lines check_name check_config
  severity pattern_config fs = Ok fs' ->
exists added, fs' = (fs ++ added)%list
              /\ (String.prefix "/" file_path = true -> added = []).
Proof.
unfold Validator.scan_pattern.
destruct (Validator.read_pattern severity pattern_config) as [pf|]; cbn;
  [|discriminate].
destruct (for_each lines _ (1, fs)) as [st|] eqn:E; cbn; [|discriminate].
intros H. injection H as <-.
apply (for_each_related
         (fun a b : Z * list Validator.Finding =>
            exists added, snd b = (snd a ++ added)%list
                          /\ (String.prefix "/" file_path = true -> added = [])))
  in E.
- exact E.
- intros s. exists []. now rewrite app_nil_r.
- intros s1 s2 s3 [a1 [E1 P1]] [a2 [E2 P2]]. exists (a1 ++ a2)%list.
  split; [now rewrite E2, E1, app_assoc|].
  intros Habs. now rewrite P1, P2.
- intros line s s' _. apply scan_line_appends.
Qed.

Lemma run_check_extends (self self' : Validator.CodeValidator)
  (file_path check_name : string) (lines : list string) :
Validator.run_check re_search self file_path lines check_name = Ok self' ->
extends self self'
/\ (String.prefix "/" file_path = true ->
    Validator.findings self' = Validator.findings self).
Proof.
unfold Validator.run_check.
destruct (dict_get (Validator.rules self) check_name) as [cfg|]; [|discriminate].
destruct (Validator.Severity_named _) as [sev|]; cbn; [|discriminate].
destruct (match Validator.files cfg with Some _ => _ | None => true end).
- destruct (for_each _ _ (Validator.findings self)) as [fs|] eqn:E; cbn;
    [|discriminate].
  intros H. injection H as <-.
  apply (for_each_related
           (fun a b : list Validator.Finding =>
              exists added, b = (a ++ added)%list
                            /\ (String.prefix "/" file_path = true -> added = [])))
    in E.
  + destruct E as [added [-> Habs]]. split.
    * split; [reflexivity|]. exists added. reflexivity.
    * intros Hp. cbn. now rewrite (Habs Hp), app_nil_r.
  + intros s. exists []. now rewrite app_nil_r.
  + intros s1 s2 s3 [a1 [E1 P1]] [a2 [E2 P2]]. exists (a1 ++ a2)%list.
    split; [now rewrite E2, E1, app_assoc|].
    intros Habs. now rewrite P1, P2.
  + intros pc s s' _. apply scan_pattern_appends.
- intros H. injection H as <-. split; [apply extends_refl | reflexivity].
Qed.

Lemma validate_file_extends (check_types : option (list string))
  (file : string * option (list string)) (self self' : Validator.CodeValidator) :
Validator.validate_file re_search check_types file self = Ok self' ->
extends self self'
/\ (String.prefix "/" (fst file) = true ->
    Validator.findings self' = Validator.findings self).
Proof.
destruct file as [file_path [lines|]]; cbn [Validator.validate_file fst].
- apply (for_each_related
           (fun a b => extends a b
                       /\ (String.prefix "/" file_path = true ->
                           Validator.findings b = Validator.findings a))).
  + intros s. split; [apply extends_refl | reflexivity].
  + intros s1 s2 s3 [E1 P1] [E2 P2]. split; [eapply extends_trans; eassumption|].
    intros Habs. now rewrite P2, P1.
  + intros check_name s s' _.
    destruct (dict_get (Validator.rules s) check_name).
    * apply run_check_extends.
    * intros H. injection H as <-. split; [apply extends_refl | reflexivity].
- intros H. injection H as <-. split; [apply extends_refl | reflexivity].
Qed.

End ValidatorRuns.

(** X14. A run of [validate_directory] that ends without an exception only
    adds findings: the findings it started with are still there, in place and
    unchanged, in front of the new ones, and the rules are the same. *)
Theorem validation_only_adds_findings
    (re_search : string -> string -> option bool)
    (self self' : Validator.CodeValidator)
    (python_files : list (string * option (list string)))
    (check_types : option (list string)) :
  Validator.validate_directory re_search self python_files check_types = Ok self' ->
  extends self self'.
Proof.
  unfold Validator.validate_directory.
  apply (for_each_related extends).
  - apply extends_refl.
  - apply extends_trans.
  - intros file s s' _ H. eapply validate_file_extends, H.
Qed.

Lemma validation_only_adds_findings_witness :
  extends (validator_of [ ("code_quality", bare_check ["TODO"]) ])
    (Validator.with_findings
       (validator_of [ ("code_quality", bare_check ["TODO"]) ]) [ todo_finding ]).
Proof.
  apply (validation_only_adds_findings Re.re_search _ _ two_files None).
  reflexivity.
Defined.



Lemma for_each_cons_ok {A S} (body : A -> S -> result S) (x : A)
    (xs : list A) (s s1 : S) :
  body x s = Ok s1 -> for_each (x :: xs) body s = for_each xs body s1.
Proof. cbn [for_each]. now intros ->. Qed.

Lemma scan_line_total (matches : string -> string -> bool)
    (file_path check_name regex line : string) (all_lines : list string)
    (check_config : Validator.CheckConfig) (pf : Validator.pattern_fields)
    (n : Z) (fs : list Validator.Finding) :
  String.prefix "/" file_path = false ->
  Validator.pf_pattern pf = Some regex ->
  Validator.scan_line (fun r s => Some (matches r s)) file_path all_lines
    check_name check_config pf line (n, fs)
  = Ok (n + 1,
        (fs ++ if matches regex line
                  && negb (Validator.is_allowed_context file_path line
                             all_lines n check_config)
               then [finding_at file_path check_name pf (n, line)]
               else [])%list).
Proof.
  intros Hrel Hpat. unfold Validator.scan_line, Validator.finding_path.
  rewrite Hpat, Hrel.
  destruct (matches regex line); cbn [andb];
    [|now rewrite app_nil_r].
  destruct (Validator.is_allowed_context file_path line all_lines n check_config);
    cbn [negb]; [now rewrite app_nil_r | reflexivity].
Qed.

Lemma scan_lines_exact (matches : string -> string -> bool)
    (file_path check_name regex : string) (all_lines : list string)
    (check_config : Validator.CheckConfig) (pf : Validator.pattern_fields)
    (ls : list string) (n : Z) (fs : list Validator.Finding) :
  String.prefix "/" file_path = false ->
  Validator.pf_pattern pf = Some regex ->
  for_each ls
    (Validator.scan_line (fun r s => Some (matches r s)) file_path all_lines
       check_name check_config pf) (n, fs)
  = Ok (n + Validator.len ls,
        (fs ++ map (finding_at file_path check_name pf)
                 (List.filter
                    (fun numbered =>
                       matches regex (snd numbered)
                       && negb (Validator.is_allowed_context file_path
                                  (snd numbered) all_lines (fst numbered)
                                  check_config))
                    (ContextSpec.numbered_from n ls)))%list).
Proof.
  intros Hrel Hpat. revert n fs.
  induction ls as [|l ls IH]; intros n fs.
  - unfold Validator.len. cbn. now rewrite Z.add_0_r, app_nil_r.
  - rewrite (for_each_cons_ok _ _ _ _ _
               (scan_line_total matches file_path check_name regex l all_lines
                  check_config pf n fs Hrel Hpat)).
    rewrite IH. cbn [ContextSpec.numbered_from List.filter fst snd].
    replace (n + Validator.len (l :: ls)) with (n + 1 + Validator.len ls)
      by (unfold Validator.len; cbn [List.length]; lia).
    destruct (matches regex l && negb _)%bool; cbn [map].
    + now rewrite <- app_assoc.
    + now rewrite app_nil_r.
Qed.

Example strip_ascii_whitespace : Validator.strip "  # TODO later
" = "# TODO later".
Proof. reflexivity. Qed.

Example strip_no_break_space :
  Validator.strip
    (String "194" (String "160" ("# TODO later" ++ String "194" (String "160" ""))))
  = "# TODO later".
Proof. reflexivity. Qed.

Example strip_keeps_zero_width_space :
  Validator.strip (String "226" (String "128" (String "139" "x")))
  = String "226" (String "128" (String "139" "x")).
Proof. reflexivity. Qed.

(** X16. For a file given by a relative path and a pattern on which the
    regex engine does not raise, [run_check]'s scan for that pattern adds
    exactly one finding for each line that the pattern matches and that is
    not in an allowed context, in the order of the lines, with the number of
    the line (from 1) and the stripped line as its snippet. *)
Theorem scan_pattern_findings (matches : string -> string -> bool)
    (file_path check_name regex : string) (lines : list string)
    (check_config : Validator.CheckConfig) (severity : Validator.Severity)
    (pattern_config : Validator.PatternConfig) (pf : Validator.pattern_fields)
    (fs : list Validator.Finding) :
  String.prefix "/" file_path = false ->
  Validator.read_pattern severity pattern_config = Ok pf ->
  Validator.pf_pattern pf = Some regex ->
  Validator.scan_pattern (fun r s => Some (matches r s)) file_path lines
    check_name check_config severity pattern_config fs
  = Ok (fs ++ map (finding_at file_path check_name pf)
                (List.filter
                   (fun numbered =>
                      matches regex (snd numbered)
                      && negb (Validator.is_allowed_context file_path
                                 (snd numbered) lines (fst numbered) check_config))
                   (ContextSpec.numbered_from 1 lines)))%list.
Proof.
  intros Hrel Hread Hpat. unfold Validator.scan_pattern. rewrite Hread. cbn.
  now rewrite (scan_lines_exact matches file_path check_name regex lines
                 check_config pf lines 1 fs Hrel Hpat).
Qed.

Lemma scan_pattern_findings_witness :
  Validator.scan_pattern (fun r s => Some (PyStr.contains r s)) "src/view.py"
    reviewed_lines "hardcoded_pixel_sizes" (reviewed_config 1) Validator.ERROR
    (Validator.Bare "640") []
  = Ok [ {| Validator.severity := Validator.ERROR;
            Validator.file_path := "src/view.py";
            Validator.line_number := 3;
            Validator.rule_name := "hardcoded_pixel_sizes";
            Validator.message := "Matched pattern: 640";
            Validator.code_snippet := "w = 640";
            Validator.suggestion := "" |} ].
Proof.
  apply (scan_pattern_findings (fun r s => PyStr.contains r s) "src/view.py"
           "hardcoded_pixel_sizes" "640" reviewed_lines (reviewed_config 1)
           Validator.ERROR (Validator.Bare "640")
           {| Validator.pf_pattern := Some "640";
              Validator.pf_message := "Matched pattern: 640";
              Validator.pf_suggestion := "";
              Validator.pf_severity := Validator.ERROR |} []);
    reflexivity.
Defined.

(** X17. [validate_file] runs a check only when its name is among the checks
    to run and the rules have an entry of that name: when the rules have no
    entry for any of the checks to run, the validator is returned as it was,
    and no pattern of the rules is evaluated, whatever it is. *)
Theorem unconfigured_checks_are_skipped
    (re_search : string -> string -> option bool)
    (check_types : option (list string))
    (file : string * option (list string)) (self : Validator.CodeValidator) :
  Forall (fun check_name => dict_get (Validator.rules self) check_name = None)
    (Validator.checks_to_run check_types) ->
  Validator.validate_file re_search check_types file self = Ok self.
Proof.
  intros H. destruct file as [file_path [lines|]]; [|reflexivity].
  cbn [Validator.validate_file].
  induction H as [|c cs Hc _ IH]; [reflexivity|].
  cbn [for_each]. rewrite Hc. cbn. exact IH.
Qed.

Lemma unconfigured_checks_are_skipped_witness :
  Validator.validate_file Re.re_search None ("src/a.py", Some [ "x = 1" ])
    (validator_of [ ("my_rule", bare_check ["("]) ])
  = Ok (validator_of [ ("my_rule", bare_check ["("]) ]).
Proof.
  apply (unconfigured_checks_are_skipped Re.re_search None
           ("src/a.py", Some [ "x = 1" ])
           (validator_of [ ("my_rule", bare_check ["("]) ])).
  repeat constructor.
Defined.

(** ** The context window grows with [context_lines] *)

Lemma append_empty_r (s : string) : s ++ "" = s.
Proof. induction s as [|c s IH]; [reflexivity|]. now rewrite append_cons, IH. Qed.

Lemma append_assoc (s t u : string) : (s ++ t) ++ u = s ++ t ++ u.
Proof. induction s as [|c s IH]; [reflexivity|]. now rewrite !append_cons, IH. Qed.

Lemma concat_cons (h : string) (t : list string) :
  String.concat "" (h :: t) = h ++ String.concat "" t.
Proof.
  destruct t; cbn [String.concat]; [now rewrite append_empty_r|].
  now rewrite append_empty.
Qed.

Lemma concat_app (x y : list string) :
  String.concat "" (x ++ y) = String.concat "" x ++ String.concat "" y.
Proof.
  induction x as [|h x IH]; [reflexivity|].
  cbn [app]. now rewrite !concat_cons, IH, append_assoc.
Qed.

Lemma occurs_in_middle (sub pre mid post : string) :
  PyStr.occurs_in sub mid -> PyStr.occurs_in sub (pre ++ mid ++ post).
Proof.
  intros [a [b ->]]. exists (pre ++ a), (b ++ post).
  now rewrite !append_assoc.
Qed.

Lemma sublist_widen {A} (l : list A) (a b a' b' : nat) :
  (a' <= a)%nat -> (a + b <= a' + b')%nat ->
  exists pre post,
    firstn b' (skipn a' l) = (pre ++ firstn b (skipn a l) ++ post)%list.
Proof.
  intros Ha Hb. set (d := (a - a')%nat).
  replace (skipn a l) with (skipn d (skipn a' l))
    by (rewrite skipn_skipn; f_equal; lia).
  set (l' := skipn a' l).
  exists (firstn d (firstn b' l')), (skipn b (firstn (b' - d) (skipn d l'))).
  rewrite <- (firstn_skipn d (firstn b' l')) at 1. f_equal.
  rewrite skipn_firstn_comm.
  rewrite <- (firstn_skipn b (firstn (b' - d) (skipn d l'))) at 1. f_equal.
  rewrite firstn_firstn. f_equal. lia.
Qed.

Lemma window_widen (all_lines : list string) (n k k' : Z) :
  1 <= n -> 0 <= k <= k' ->
  exists pre post,
    ContextSpec.window all_lines n k'
    = (pre ++ ContextSpec.window all_lines n k ++ post)%list.
Proof.
  intros Hn Hk. unfold ContextSpec.window. rewrite !lines_between_numbered.
  apply sublist_widen; lia.
Qed.

(** X18. Widening the context window never brings a finding back: for a
    line number within the file, a match that is exempt with a window of [k]
    lines on either side is exempt with a window of [k'] lines for every
    [k'] from [k] on. *)
Theorem wider_window_still_exempts (file_path line : string)
    (all_lines : list string) (n k k' : Z)
    (check_config : Validator.CheckConfig) :
  1 <= n <= Validator.len all_lines -> 0 <= k <= k' ->
  Validator.is_allowed_context file_path line all_lines n
    (with_context_lines check_config k) = true ->
  Validator.is_allowed_context file_path line all_lines n
    (with_context_lines check_config k') = true.
Proof.
  intros Hn Hk. unfold Validator.is_allowed_context.
  rewrite !is_allowed_in_iff by (cbn; lia).
  cbn [with_context_lines Validator.allowed_contexts Validator.context_lines get_or].
  intros [context [Hin Hsat]]. exists context. split; [exact Hin|].
  destruct Hsat as [H|[H|H]]; [left; exact H | right; left; exact H|].
  right. right.
  destruct (window_widen all_lines n k k') as [pre [post ->]]; [lia | lia|].
  rewrite !concat_app. now apply occurs_in_middle.
Qed.

Lemma wider_window_still_exempts_witness :
  Validator.is_allowed_context "src/view.py" "w = 640
" reviewed_lines 3 (with_context_lines (reviewed_config 0) 7) = true.
Proof.
  apply (wider_window_still_exempts "src/view.py" _ reviewed_lines 3 2 7
           (reviewed_config 0)).
  - vm_compute. intuition discriminate.
  - lia.
  - reflexivity.
Defined.

(** * The four checks together *)

Lemma analyzer_extends_refl (self : Analyzer.ArchitectureAnalyzer) :
  analyzer_extends self self.
Proof. repeat split. exists []. now rewrite app_nil_r. Qed.

Lemma analyzer_extends_trans (s1 s2 s3 : Analyzer.ArchitectureAnalyzer) :
  analyzer_extends s1 s2 -> analyzer_extends s2 s3 -> analyzer_extends s1 s3.
Proof.
  intros (R1 & M1 & G1 & a1 & V1) (R2 & M2 & G2 & a2 & V2).
  repeat split; try congruence.
  exists (a1 ++ a2)%list. now rewrite V2, V1, app_assoc.
Qed.

Lemma with_violations_extends (self : Analyzer.ArchitectureAnalyzer)
    (added : list Analyzer.ArchitectureViolation) :
  analyzer_extends self
    (Analyzer.with_violations self (Analyzer.violations self ++ added)%list).
Proof. repeat split. exists added. reflexivity. Qed.

Lemma for_each_raises {A S} (P : exn -> Prop) (body : A -> S -> result S)
    (xs : list A) :
  (forall x s e, In x xs -> body x s = Raise e -> P e) ->
  forall s e, for_each xs body s = Raise e -> P e.
Proof.
  induction xs as [|x xs IH]; intros Hbody s e; cbn [for_each]; [discriminate|].
  destruct (body x s) as [s1|e1] eqn:E; cbn.
  - apply IH. intros y t e' Hy. apply Hbody. now right.
  - intros H. injection H as <-. apply (Hbody x s); [now left | exact E].
Qed.

Lemma check_layer_violations_outcome
    (re_match : string -> string -> option bool)
    (self : Analyzer.ArchitectureAnalyzer) :
  match Analyzer.check_layer_violations re_match self with
  | Ok self' => analyzer_extends self self'
  | Raise e => e = ReError
  end.
Proof.
  unfold Analyzer.check_layer_violations.
  set (body := Analyzer.check_module_layer re_match
                 (get_or (Analyzer.layers (Analyzer.rules self)) [])).
  assert (step : forall pat m l i vs,
             match Analyzer.check_forbidden re_match m l i pat vs with
             | Ok vs' => exists added, vs' = (vs ++ added)%list
             | Raise e => e = ReError
             end).
  { intros pat m l i vs. unfold Analyzer.check_forbidden.
    destruct (re_match _ i) as [[|]|]; [eexists; reflexivity | | reflexivity].
    exists []. now rewrite app_nil_r. }
  assert (grows : forall A (f : A -> list Analyzer.ArchitectureViolation
                               -> result (list Analyzer.ArchitectureViolation))
                    (xs : list A),
             (forall x vs, match f x vs with
                           | Ok vs' => exists added, vs' = (vs ++ added)%list
                           | Raise e => e = ReError
                           end) ->
             forall vs, match for_each xs f vs with
                        | Ok vs' => exists added, vs' = (vs ++ added)%list
                        | Raise e => e = ReError
                        end).
  { intros A f xs Hf vs.
    destruct (for_each xs f vs) as [vs'|e] eqn:E.
    - apply (for_each_related
               (fun a b => exists added, b = (a ++ added)%list)) in E; [exact E| | |].
      + intros s. exists []. now rewrite app_nil_r.
      + intros s1 s2 s3 [a1 ->] [a2 ->]. exists (a1 ++ a2)%list.
        now rewrite app_assoc.
      + intros x s s' _ Hx. specialize (Hf x s). now rewrite Hx in Hf.
    - apply (for_each_raises (fun e => e = ReError)) in E; [exact E|].
      intros x s e' _ Hx. specialize (Hf x s). now rewrite Hx in Hf. }
  assert (Hbody : forall entry vs,
             match body entry vs with
             | Ok vs' => exists added, vs' = (vs ++ added)%list
             | Raise e => e = ReError
             end).
  { intros [module_name module] vs. unfold body, Analyzer.check_module_layer.
    destruct (Analyzer.layer module) as [[|c l]|];
      try (exists []; now rewrite app_nil_r).
    apply grows. intros i vs1. apply grows. intros pat vs2. apply step. }
  specialize (grows _ body (Analyzer.modules self) Hbody (Analyzer.violations self)).
  destruct (for_each (Analyzer.modules self) body (Analyzer.violations self))
    as [vs'|e]; cbn; [|exact grows].
  destruct grows as [added ->]. apply with_violations_extends.
Qed.

Lemma fold_left_appends {A B} (f : A -> list B) (xs : list A) (acc : list B) :
  fold_left (fun acc x => (acc ++ f x)%list) xs acc = (acc ++ flat_map f xs)%list.
Proof.
  revert acc. induction xs as [|x xs IH]; intros acc; cbn [fold_left flat_map].
  - now rewrite app_nil_r.
  - now rewrite IH, app_assoc.
Qed.

Lemma check_circular_extends (self self' : Analyzer.ArchitectureAnalyzer) :
  Analyzer.check_circular_dependencies self = Some self' ->
  analyzer_extends self self'.
Proof.
  intros H. destruct (cycle_check_outcome self) as (pairs & E & _).
  rewrite H in E. cbn in E. injection E as E.
  unfold Analyzer.check_circular_dependencies in H.
  destruct (Analyzer.for_each_opt _ _ _) as [[checked vs]|]; [|discriminate].
  injection H as <-. cbn in E. subst vs. apply with_violations_extends.
Qed.

Lemma check_circular_returns (self : Analyzer.ArchitectureAnalyzer) :
  is_Some (Analyzer.check_circular_dependencies self).
Proof.
  destruct (cycle_check_outcome self) as (pairs & E & _).
  destruct (Analyzer.check_circular_dependencies self); [eauto | discriminate].
Qed.

(** X19. [check_architecture_rules] always ends.  The one exception it can
    raise is [re.error], from a forbidden-import pattern of the layer check;
    otherwise the four checks leave the rules, the modules and the graph as
    they were, and the violations found before stay in place in front of the
    ones they add. *)
Theorem rule_checks_only_add_violations
    (re_match re_search : string -> string -> option bool)
    (fs : Analyzer.file_system) (self : Analyzer.ArchitectureAnalyzer) :
  exists outcome,
    check_architecture_rules re_match re_search fs self = Some outcome
    /\ match outcome with
       | Ok self' => analyzer_extends self self'
       | Raise e => e = ReError
       end.
Proof.
  unfold check_architecture_rules.
  pose proof (check_layer_violations_outcome re_match self) as L.
  destruct (Analyzer.check_layer_violations re_match self) as [s1|e];
    [|eexists; split; [reflexivity | exact L]].
  destruct (check_circular_returns s1) as [s2 C]. rewrite C.
  eexists. split; [reflexivity|].
  apply analyzer_extends_trans with s1; [exact L|].
  apply analyzer_extends_trans with s2; [apply check_circular_extends, C|].
  apply analyzer_extends_trans with (Analyzer.check_complexity s2).
  - repeat split. eexists. apply check_complexity_appends.
  - repeat split. eexists. unfold Analyzer.check_duplicate_logic.
    cbn [Analyzer.violations Analyzer.with_violations].
    apply fold_left_appends.
Qed.

(** * Graph construction and cycle check together *)

(** X20. A module with an import that is contained in its own dotted path is
    reported as circular with itself: after [build_dependency_graph] the
    cycle check ends with the violation [a ↔ a] among its violations. *)
Theorem self_match_is_reported_as_cycle (self : Analyzer.ArchitectureAnalyzer)
    (a import_name : string) (module : Analyzer.PyModule) :
  In (a, module) (Analyzer.modules self) ->
  In import_name (Analyzer.imports module) ->
  import_matches import_name module = true ->
  exists self',
    Analyzer.check_circular_dependencies (Analyzer.build_dependency_graph self)
    = Some self'
    /\ In (Analyzer.circular_violation a a) (Analyzer.violations self').
Proof.
  intros Hmod Himp Hmatch.
  set (built := Analyzer.build_dependency_graph self).
  assert (Hedge : GraphSpec.edge (Analyzer.dependency_graph built) a a).
  { unfold GraphSpec.edge, built, Analyzer.build_dependency_graph.
    cbn [Analyzer.dependency_graph Analyzer.with_dependency_graph].
    apply resolve_modules_edges. right. exists module, import_name, module.
    tauto. }
  destruct (cycle_check_outcome built) as (pairs & E & _ & _ & Hall).
  destruct (Analyzer.check_circular_dependencies built) as [self'|];
    [|discriminate].
  exists self'. split; [reflexivity|]. cbn in E. injection E as ->.
  apply in_or_app. right.
  specialize (Hall (a, a)). unfold on_cycle in Hall. cbn [fst snd] in Hall.
  assert (Hin : In (unordered (a, a)) (map unordered pairs))
    by (apply Hall; split; [exact Hedge | apply rtc_refl]).
  apply in_map_iff in Hin. destruct Hin as [[x y] [Hxy Hin]].
  unfold unordered in Hxy. cbn [fst snd] in Hxy.
  apply sorted_pair_same in Hxy. apply in_map_iff. exists (x, y).
  split; [|exact Hin]. unfold violation_of_pair. cbn [fst snd].
  destruct Hxy as [[-> ->]|[-> ->]]; reflexivity.
Qed.

Lemma self_match_is_reported_as_cycle_witness :
  exists self',
    Analyzer.check_circular_dependencies
      (Analyzer.build_dependency_graph (analyzer_of no_rules os_corpus))
    = Some self'
    /\ In (Analyzer.circular_violation "os_helpers.py" "os_helpers.py")
         (Analyzer.violations self').
Proof.
  apply (self_match_is_reported_as_cycle (analyzer_of no_rules os_corpus)
           "os_helpers.py" "os" (snd (module_importing "os_helpers.py" "" ["os"]))).
  - right. now left.
  - now left.
  - reflexivity.
Defined.

(** * The printed dependency tree *)

Lemma insert_sorted_In (x y : string) (l : list string) :
  In y (insert_sorted x l) <-> y = x \/ In y l.
Proof.
  induction l as [|z l IH]; cbn [insert_sorted In]; [intuition congruence|].
  destruct (String.leb x z); cbn [In]; [intuition congruence|].
  rewrite IH. tauto.
Qed.

Lemma sorted_In (y : string) (l : list string) : In y (sorted l) <-> In y l.
Proof.
  unfold sorted. induction l as [|x l IH]; cbn [fold_right In]; [tauto|].
  rewrite insert_sorted_In, IH. intuition congruence.
Qed.

Lemma for_each_dep_total (recurse : string -> option (list (string * Z)))
    (deps : list string) :
  (forall dep, In dep deps -> is_Some (recurse dep)) ->
  is_Some (for_each_dep recurse deps).
Proof.
  induction deps as [|d deps IH]; intros H; cbn [for_each_dep]; [eauto|].
  destruct (H d (or_introl eq_refl)) as [p ->].
  destruct IH as [more ->]; [intros d' Hd'; apply H; now right | eauto].
Qed.

Lemma for_each_dep_all (P : string * Z -> Prop)
    (recurse : string -> option (list (string * Z))) (deps : list string)
    (printed : list (string * Z)) :
  (forall dep out, In dep deps -> recurse dep = Some out -> Forall P out) ->
  for_each_dep recurse deps = Some printed -> Forall P printed.
Proof.
  revert printed. induction deps as [|d deps IH]; intros printed H;
    cbn [for_each_dep].
  - intros E. injection E as <-. constructor.
  - destruct (recurse d) as [p|] eqn:Ed; [|discriminate].
    destruct (for_each_dep recurse deps) as [more|] eqn:Em; [|discriminate].
    intros E. injection E as <-. apply Forall_app. split.
    + apply (H d); [now left | exact Ed].
    + apply IH; [|reflexivity]. intros d' out Hd'. apply H. now right.
Qed.

Lemma deps_tree_total (g : Analyzer.graph) (fuel : nat) (module : string)
    (depth max_depth : Z) (visited : gset string) :
  (Z.to_nat (max_depth - depth + 1) < fuel)%nat ->
  is_Some (deps_tree_entries fuel g module depth max_depth visited).
Proof.
  revert module depth visited.
  induction fuel as [|fuel IH]; intros module depth visited Hfuel; [lia|].
  cbn [deps_tree_entries].
  destruct (Z.gtb_spec depth max_depth) as [Hd|Hd]; cbn [orb]; [eauto|].
  destruct (bool_decide (module ∈ visited)); [eauto|].
  destruct (for_each_dep_total
              (fun dep => deps_tree_entries fuel g dep (depth + 1) max_depth
                            (visited ∪ {[module]}))
              (sorted (Analyzer.graph_get g module))) as [below ->]; [|eauto].
  intros dep _. apply IH. lia.
Qed.

Lemma deps_tree_sound (g : Analyzer.graph) (fuel : nat) (module : string)
    (depth max_depth : Z) (visited : gset string)
    (printed : list (string * Z)) :
  deps_tree_entries fuel g module depth max_depth visited = Some printed ->
  Forall (fun entry => depth <= snd entry <= max_depth
                       /\ rtc (GraphSpec.edge g) module (fst entry))
    printed.
Proof.
  revert module depth visited printed.
  induction fuel as [|fuel IH]; intros module depth visited printed;
    cbn [deps_tree_entries]; [discriminate|].
  destruct (Z.gtb_spec depth max_depth) as [Hd|Hd]; cbn [orb].
  { intros E. injection E as <-. constructor. }
  destruct (bool_decide (module ∈ visited)).
  { intros E. injection E as <-. constructor. }
  destruct (for_each_dep _ _) as [below|] eqn:Eb; [|discriminate].
  intros E. injection E as <-. constructor.
  - cbn [fst snd]. split; [lia | apply rtc_refl].
  - eapply for_each_dep_all; [|exact Eb].
    intros dep out Hdep Hout. rewrite sorted_In in Hdep.
    eapply Forall_impl; [apply (IH _ _ _ _ Hout)|].
    intros [m d] [Hrange Hpath]. cbn [fst snd] in *.
    split; [lia|]. apply rtc_l with dep; [exact Hdep | exact Hpath].
Qed.

(** X21. [_print_deps_tree] always ends, and the lines it prints are those of
    a list of modules with their depths: every depth lies between the starting
    depth and [max_depth], and every module is the starting one or one that
    it depends on through a chain of dependencies. *)
Theorem deps_tree_prints_reachable_modules (self : Analyzer.ArchitectureAnalyzer)
    (module : string) (depth max_depth : Z) (visited : gset string) :
  exists printed,
    _print_deps_tree self module depth max_depth visited
    = Some (map (tree_line self) printed)
    /\ Forall (fun entry =>
                 depth <= snd entry <= max_depth
                 /\ rtc (GraphSpec.edge (Analyzer.dependency_graph self)) module
                      (fst entry))
         printed.
Proof.
  unfold _print_deps_tree.
  destruct (deps_tree_total (Analyzer.dependency_graph self)
              (tree_fuel depth max_depth) module depth max_depth visited)
    as [printed E]; [unfold tree_fuel; lia|].
  exists printed. rewrite E. split; [reflexivity|].
  eapply deps_tree_sound, E.
Qed.

Lemma roots_none (self : Analyzer.ArchitectureAnalyzer) :
  Forall (fun m => Exists (fun entry => In m (snd entry))
                     (Analyzer.dependency_graph self))
    (map fst (Analyzer.modules self)) ->
  roots self = [].
Proof.
  unfold roots. induction 1 as [|m ms Hm _ IH]; [reflexivity|].
  cbn [List.filter].
  assert (E : existsb (fun deps => existsb (String.eqb m) deps)
                (map snd (Analyzer.dependency_graph self)) = true).
  { apply List.Exists_exists in Hm. destruct Hm as [entry [Hin Hm]].
    apply existsb_exists. exists (snd entry). split; [now apply in_map|].
    apply existsb_exists. exists m. split; [exact Hm | apply String.eqb_refl]. }
  rewrite E. exact IH.
Qed.

(** X22. When every module of the corpus is in the dependency set of some
    module, as when all of them lie on cycles, [print_dependency_graph]
    without a start module finds no root and prints the three header lines
    and nothing else. *)
Theorem graph_without_roots_prints_header_only
    (self : Analyzer.ArchitectureAnalyzer) (max_depth : Z) :
  Forall (fun m => Exists (fun entry => In m (snd entry))
                     (Analyzer.dependency_graph self))
    (map fst (Analyzer.modules self)) ->
  print_dependency_graph self None max_depth = Some graph_header.
Proof.
  intros H. unfold print_dependency_graph. now rewrite (roots_none self H).
Qed.

Lemma graph_without_roots_prints_header_only_witness :
  print_dependency_graph
    (Analyzer.build_dependency_graph (analyzer_of no_rules circle_corpus))
    None 2 = Some graph_header.
Proof.
  apply (graph_without_roots_prints_header_only
           (Analyzer.build_dependency_graph (analyzer_of no_rules circle_corpus)) 2).
  vm_compute. constructor; [|constructor; [|constructor; [|constructor]]].
  - apply Exists_cons_tl, Exists_cons_tl, Exists_cons_hd. now left.
  - apply Exists_cons_hd. now left.
  - apply Exists_cons_tl, Exists_cons_hd. now left.
Defined.

Example deps_tree_of_main :
  _print_deps_tree
    (Analyzer.build_dependency_graph (analyzer_of no_rules os_corpus))
    "main.py" 0 2 ∅
  = Some [ "main.py "; "  ├─ os_helpers.py " ].
Proof. reflexivity. Qed.

(** * The exit status of the analyzer *)

